(** * StudyEZ: the streak engine and the leaderboard engine

    A shallow embedding of [StreakManager] and [LeaderboardManager]
    (TypeScript) and the properties of their streak state machine, of the
    ranking of the leaderboard and of the windowed reads.

    Conventions of the embedding.
    - A JavaScript [number] is an integer [Z]: all the counters of the
      program are integers, far below 2^53, where the arithmetic of doubles
      is exact. [NaN] shows up in one place only (the time of an invalid
      date) and is an [option] there.
    - [localStorage] is a record with one slot per key. The streak slot holds
      the JSON value that the stored text parses to; the text itself is not
      kept. Writing never fails. (The older variant of the two managers
      keeps the same records in cookies; the methods embedded here have the
      same bodies in both variants.)
    - A static method that reads and writes the storage is a function from
      the store to the new store and the returned value. *)

From Stdlib Require Import ZArith Lia Ascii.
From stdpp Require Import base tactics option list strings sorting pretty gmap.

Local Open Scope string_scope.
Local Open Scope list_scope.
Local Open Scope Z_scope.

(** ** JSON values and the JavaScript operators applied to them *)

(** What [JSON.parse] can return. An object is the list of its properties
    in insertion order, each key once. *)
#[warnings="-register-all"]
Inductive json : Type :=
  | JNull
  | JBool (b : bool)
  | JNum (n : Z)
  | JStr (s : string)
  | JArr (items : list json)
  | JObj (fields : list (string * json)).

(** The value of an expression [data.key]: [None] is [undefined]. *)
Definition jsval : Type := option json.

Fixpoint assoc (key : string) (fields : list (string * json)) : jsval :=
  match fields with
  | [] => None
  | (k, v) :: rest => if String.eqb k key then Some v else assoc key rest
  end.

(** [data.key] for a [data] that is not [null]: a primitive or an array has
    no property of the names used here. ([null.key] throws; the callers
    treat [JNull] on their own.) *)
Definition prop (data : json) (key : string) : jsval :=
  match data with
  | JObj fields => assoc key fields
  | _ => None
  end.

(** ToBoolean. *)
Definition truthy (v : jsval) : bool :=
  match v with
  | None => false
  | Some JNull => false
  | Some (JBool b) => b
  | Some (JNum n) => negb (n =? 0)
  | Some (JStr s) => negb (String.eqb s "")
  | Some (JArr _) => true
  | Some (JObj _) => true
  end.

Definition typeof (v : jsval) : string :=
  match v with
  | None => "undefined"
  | Some JNull => "object"
  | Some (JBool _) => "boolean"
  | Some (JNum _) => "number"
  | Some (JStr _) => "string"
  | Some (JArr _) => "object"
  | Some (JObj _) => "object"
  end.

(** [v || 0] read at type [number]. A truthy [v] of another kind is returned
    as it is by JavaScript and leaves the [StreakData] interface: that is
    [None] here. *)
Definition or_number (v : jsval) : option Z :=
  if truthy v then match v with Some (JNum n) => Some n | _ => None end
  else Some 0.

(** [v || ''] read at type [string]. *)
Definition or_string (v : jsval) : option string :=
  if truthy v then match v with Some (JStr s) => Some s | _ => None end
  else Some "".

(** [v || false] read at type [boolean]. *)
Definition or_boolean (v : jsval) : option bool :=
  if truthy v then match v with Some (JBool b) => Some b | _ => None end
  else Some false.

(** ** The data model *)

Record StreakData : Type := mkStreakData {
  currentStreak : Z;
  longestStreak : Z;
  lastQuizDate : string;
  totalQuizzesPassed : Z;
  totalQuizzesTaken : Z;
  totalPoints : Z;
  consecutiveCorrectAnswers : Z;
  isInStreak : bool
}.

(** The fields of a leaderboard entry live in a module of their own: three
    of them have the names of fields of [StreakData]. *)
Module Entry.
Record LeaderboardEntry : Type := mk {
  playerName : string;
  totalPoints : Z;
  longestStreak : Z;
  totalQuizzesPassed : Z;
  lastActive : string;
  rank : Z
}.
End Entry.

Abbreviation LeaderboardEntry := Entry.LeaderboardEntry.

(** The three keys of [localStorage] that the two managers use.
    [streak_item] is [None] when the key is absent, its text is empty or the
    text is not JSON: [getStreakData] answers the default in all three. *)
Record Store : Type := mkStore {
  streak_item : option json;            (* 'studyez_streak_data' *)
  player_name_item : option string;     (* 'studyez_player_name' *)
  leaderboard_item : list LeaderboardEntry
}.

Definition emptyStore : Store := mkStore None None [].

(** What the program reads from the clock: [new Date()] and the [Date]
    constructor on a stored string. *)
Record Clock : Type := mkClock {
  now_ms : Z;                           (* new Date().getTime() *)
  date_ms : string -> option Z;         (* new Date(s).getTime(), None = NaN *)
  today_string : string;                (* new Date().toDateString() *)
  now_iso : string                      (* new Date().toISOString() *)
}.

(** Assignments to one field of a [StreakData] object. *)
Definition set_currentStreak (v : Z) (d : StreakData) : StreakData :=
  mkStreakData v (longestStreak d) (lastQuizDate d) (totalQuizzesPassed d)
    (totalQuizzesTaken d) (totalPoints d) (consecutiveCorrectAnswers d)
    (isInStreak d).

Definition set_longestStreak (v : Z) (d : StreakData) : StreakData :=
  mkStreakData (currentStreak d) v (lastQuizDate d) (totalQuizzesPassed d)
    (totalQuizzesTaken d) (totalPoints d) (consecutiveCorrectAnswers d)
    (isInStreak d).

Definition set_lastQuizDate (v : string) (d : StreakData) : StreakData :=
  mkStreakData (currentStreak d) (longestStreak d) v (totalQuizzesPassed d)
    (totalQuizzesTaken d) (totalPoints d) (consecutiveCorrectAnswers d)
    (isInStreak d).

Definition set_totalQuizzesPassed (v : Z) (d : StreakData) : StreakData :=
  mkStreakData (currentStreak d) (longestStreak d) (lastQuizDate d) v
    (totalQuizzesTaken d) (totalPoints d) (consecutiveCorrectAnswers d)
    (isInStreak d).

Definition set_totalQuizzesTaken (v : Z) (d : StreakData) : StreakData :=
  mkStreakData (currentStreak d) (longestStreak d) (lastQuizDate d)
    (totalQuizzesPassed d) v (totalPoints d) (consecutiveCorrectAnswers d)
    (isInStreak d).

Definition set_totalPoints (v : Z) (d : StreakData) : StreakData :=
  mkStreakData (currentStreak d) (longestStreak d) (lastQuizDate d)
    (totalQuizzesPassed d) (totalQuizzesTaken d) v
    (consecutiveCorrectAnswers d) (isInStreak d).

Definition set_consecutiveCorrectAnswers (v : Z) (d : StreakData) : StreakData :=
  mkStreakData (currentStreak d) (longestStreak d) (lastQuizDate d)
    (totalQuizzesPassed d) (totalQuizzesTaken d) (totalPoints d) v
    (isInStreak d).

Definition set_isInStreak (v : bool) (d : StreakData) : StreakData :=
  mkStreakData (currentStreak d) (longestStreak d) (lastQuizDate d)
    (totalQuizzesPassed d) (totalQuizzesTaken d) (totalPoints d)
    (consecutiveCorrectAnswers d) v.

(** ** StreakManager *)

Module StreakManager.

(** [defaultData()], also the literal at the end of the cookie version of
    [getStreakData] and in [resetStreak]. *)
Definition defaultData : StreakData :=
  mkStreakData 0 0 "" 0 0 0 0 false.

(** What [JSON.stringify] of a [StreakData] object parses back to. *)
Definition to_json (d : StreakData) : json :=
  JObj [ ("currentStreak", JNum (currentStreak d));
         ("longestStreak", JNum (longestStreak d));
         ("lastQuizDate", JStr (lastQuizDate d));
         ("totalQuizzesPassed", JNum (totalQuizzesPassed d));
         ("totalQuizzesTaken", JNum (totalQuizzesTaken d));
         ("totalPoints", JNum (totalPoints d));
         ("consecutiveCorrectAnswers", JNum (consecutiveCorrectAnswers d));
         ("isInStreak", JBool (isInStreak d)) ].

(** [localStorage.setItem(STORAGE_KEY, JSON.stringify(data))] for any value
    [data]. *)
Definition setItem (data : json) (st : Store) : Store :=
  mkStore (Some data) (player_name_item st) (leaderboard_item st).

Definition saveStreakData (data : StreakData) (st : Store) : Store :=
  setItem (to_json data) st.

(** The object literal of [getStreakData], field by field. *)
Definition readFields (parsed : json) : option StreakData :=
  cs ← or_number (prop parsed "currentStreak");
  ls ← or_number (prop parsed "longestStreak");
  lq ← or_string (prop parsed "lastQuizDate");
  qp ← or_number (prop parsed "totalQuizzesPassed");
  qt ← or_number (prop parsed "totalQuizzesTaken");
  tp ← or_number (prop parsed "totalPoints");
  cc ← or_number (prop parsed "consecutiveCorrectAnswers");
  ins ← or_boolean (prop parsed "isInStreak");
  Some (mkStreakData cs ls lq qp qt tp cc ins).

(** [getStreakData()]. No item, or text that does not parse: the default.
    [null]: the first property access throws inside the [try], the default
    again. The result is [None] only when a stored field has left the
    [StreakData] interface (see [or_number]); the typed functions below say
    nothing about such a store. *)
Definition getStreakData (st : Store) : option StreakData :=
  match streak_item st with
  | None => Some defaultData
  | Some JNull => Some defaultData
  | Some parsed => readFields parsed
  end.

(** The body of [updateStreakForAnswer] between the read and the save: the
    assignments to [currentData] in program order, and [pointsEarned]. *)
Definition answerUpdate (isCorrect : bool) (currentData : StreakData)
    : StreakData * Z :=
  if isCorrect then
    (* currentData.consecutiveCorrectAnswers++ *)
    let d1 := set_consecutiveCorrectAnswers
                (consecutiveCorrectAnswers currentData + 1) currentData in
    (* reached the threshold and not yet in a streak *)
    let d2 :=
      if (3 <=? consecutiveCorrectAnswers d1) && negb (isInStreak d1)
      then set_currentStreak (consecutiveCorrectAnswers d1)
             (set_isInStreak true d1)
      else d1 in
    if isInStreak d2 then
      let d3 := set_currentStreak (consecutiveCorrectAnswers d2) d2 in
      let pointsEarned := 1 in
      let d4 := set_totalPoints (totalPoints d3 + pointsEarned) d3 in
      let d5 :=
        if longestStreak d4 <? currentStreak d4
        then set_longestStreak (currentStreak d4) d4
        else d4 in
      (d5, pointsEarned)
    else (d2, 0)
  else
    (set_isInStreak false
       (set_currentStreak 0
          (set_consecutiveCorrectAnswers 0 currentData)), 0).

(** [updateStreakForAnswer(isCorrect)]: the new store and
    [{ data, pointsEarned }]. *)
Definition updateStreakForAnswer (isCorrect : bool) (st : Store)
    : option (Store * (StreakData * Z)) :=
  currentData ← getStreakData st;
  let '(data, pointsEarned) := answerUpdate isCorrect currentData in
  Some (saveStreakData data st, (data, pointsEarned)).

(** [updateQuizStats(passed)]. *)
Definition updateQuizStats (clk : Clock) (passed : bool) (st : Store)
    : option (Store * StreakData) :=
  currentData ← getStreakData st;
  let today := today_string clk in
  let d1 := set_totalQuizzesTaken (totalQuizzesTaken currentData + 1)
              currentData in
  let d2 := if passed
            then set_totalQuizzesPassed (totalQuizzesPassed d1 + 1) d1
            else d1 in
  let d3 := set_lastQuizDate today d2 in
  Some (saveStreakData d3 st, d3).

(** [resetStreak()]. *)
Definition resetStreak (st : Store) : Store * StreakData :=
  let resetData := mkStreakData 0 0 "" 0 0 0 0 false in
  (saveStreakData resetData st, resetData).

Definition msPerDay : Z := 1000 * 60 * 60 * 24.

(** [checkStreakExpiry(maxDaysInactive)]. An invalid date has time [NaN];
    [Math.floor] keeps it and [NaN > maxDaysInactive] is false. [Z.div]
    rounds down, as [Math.floor] of the quotient does. *)
Definition checkStreakExpiry (clk : Clock) (maxDaysInactive : Z) (st : Store)
    : option (Store * bool) :=
  streakData ← getStreakData st;
  if String.eqb (lastQuizDate streakData) "" || (currentStreak streakData =? 0)
  then Some (st, false)
  else
    match date_ms clk (lastQuizDate streakData) with
    | None => Some (st, false)
    | Some lastQuizTime =>
        let daysDifference := (now_ms clk - lastQuizTime) / msPerDay in
        if maxDaysInactive <? daysDifference then
          let updatedData := set_currentStreak 0 streakData in
          Some (saveStreakData updatedData st, true)
        else Some (st, false)
    end.

(** [importStreakData(jsonData)], on [parsed], the outcome of
    [JSON.parse(jsonData)]: [None] when it throws. Every exception ends in
    the [catch], which returns [false]. *)
Definition importStreakData (parsed : option json) (st : Store)
    : Store * bool :=
  match parsed with
  | None => (st, false)
  | Some JNull => (st, false)           (* data.currentStreak throws *)
  | Some data =>
      if String.eqb (typeof (prop data "currentStreak")) "number"
         && String.eqb (typeof (prop data "longestStreak")) "number"
         && String.eqb (typeof (prop data "lastQuizDate")) "string"
         && String.eqb (typeof (prop data "totalQuizzesPassed")) "number"
         && String.eqb (typeof (prop data "totalQuizzesTaken")) "number"
      then (setItem data st, true)
      else (st, false)                   (* throw new Error(...) *)
  end.

(** [getStreakMessage(streakData)]. A template [${n}] prints the integer
    [n] in decimal. *)
Definition getStreakMessage (streakData : StreakData) : string :=
  let early :=
    if negb (isInStreak streakData) then
      if consecutiveCorrectAnswers streakData =? 0 then
        Some "Beantwoord 3 vragen correct achter elkaar om een streak te starten!"
      else if consecutiveCorrectAnswers streakData =? 1 then
        Some "✅ 1 goed! Nog 2 correct voor je streak!"
      else if consecutiveCorrectAnswers streakData =? 2 then
        Some "✅✅ 2 goed! Nog één voor je streak!"
      else None
    else None in
  match early with
  | Some message => message
  | None =>
      if isInStreak streakData then
        if currentStreak streakData <? 5 then
          "🔥 Streak Actief! " +:+ pretty (currentStreak streakData)
            +:+ " goede antwoorden op een rij!"
        else if currentStreak streakData <? 10 then
          "🔥🔥 Geweldige streak! " +:+ pretty (currentStreak streakData)
            +:+ " goede antwoorden!"
        else if currentStreak streakData <? 20 then
          "🔥🔥🔥 Ongelooflijk! " +:+ pretty (currentStreak streakData)
            +:+ " antwoorden streak!"
        else
          "🔥🔥🔥🔥 LEGENDARISCH! " +:+ pretty (currentStreak streakData)
            +:+ " antwoorden streak!"
      else "Blijf doorgaan!"
  end.

(** [exportStreakData()]: the value that the exported text, the indented
    [JSON.stringify] of the record read, parses to. *)
Definition exportStreakData (st : Store) : option json :=
  to_json <$> getStreakData st.

End StreakManager.

(** Successive calls of [updateStreakForAnswer], one per answer, as the
    click handler of the application issues them: the final store and the
    [pointsEarned] of every call, in order. *)
Fixpoint recordAnswers (answers : list bool) (st : Store)
    : option (Store * list Z) :=
  match answers with
  | [] => Some (st, [])
  | isCorrect :: rest =>
      match StreakManager.updateStreakForAnswer isCorrect st with
      | None => None
      | Some (st1, (_, pointsEarned)) =>
          match recordAnswers rest st1 with
          | None => None
          | Some (st2, points) => Some (st2, pointsEarned :: points)
          end
      end
  end.

Definition sumZ (l : list Z) : Z := foldr Z.add 0 l.

(** ** The array methods of the language that the leaderboard uses *)

Section ArrayMethods.
Context {A : Type}.

(** [Array.prototype.sort(compareFn)] is a stable sort (ECMAScript 2019):
    [a] comes before [b] when [compareFn(a, b) < 0], and elements that
    compare equal keep their order. For a consistent comparator that
    fixes the result; it is computed here by insertion from the right,
    an element passing only the elements that must come before it. *)
Fixpoint sort_insert (compareFn : A -> A -> Z) (x : A) (sorted : list A)
    : list A :=
  match sorted with
  | [] => [x]
  | y :: rest =>
      if 0 <? compareFn x y then y :: sort_insert compareFn x rest
      else x :: y :: rest
  end.

Definition array_sort (compareFn : A -> A -> Z) (l : list A) : list A :=
  foldr (sort_insert compareFn) [] l.

(** [Array.prototype.slice(start, end)] on integers: a negative index
    counts from the end of the array, both are clipped to the array. *)
Definition array_slice (l : list A) (start end_ : Z) : list A :=
  let len := Z.of_nat (length l) in
  let k := if start <? 0 then Z.max (len + start) 0 else Z.min start len in
  let final := if end_ <? 0 then Z.max (len + end_) 0 else Z.min end_ len in
  take (Z.to_nat (final - k)) (drop (Z.to_nat k) l).
End ArrayMethods.

(** ** LeaderboardManager *)

Module LeaderboardManager.

(** Modelled from the spec: [loadLeaderboard] and [saveLeaderboard] of
    [localDatabase], which is not among the sources. The persistent store
    keeps the roster under its own key: reading returns the roster last
    written, the empty roster when there is none. (The cookie variant has
    them as [getLeaderboard] and [saveLeaderboard], with that behaviour.) *)
Definition loadLeaderboard (st : Store) : list LeaderboardEntry :=
  leaderboard_item st.

Definition saveLeaderboard (entries : list LeaderboardEntry) (st : Store)
    : Store :=
  mkStore (streak_item st) (player_name_item st) entries.

(** [getPlayerName()]: [name || 'Anonymous Player']. *)
Definition getPlayerName (st : Store) : string :=
  match player_name_item st with
  | Some name => if String.eqb name "" then "Anonymous Player" else name
  | None => "Anonymous Player"
  end.

Definition setPlayerName (name : string) (st : Store) : Store :=
  mkStore (streak_item st) (Some name) (leaderboard_item st).

(** The first part of [updateLeaderboard]: the entry found by
    [leaderboard.find] is updated in place, in the array; without one a new
    entry of rank 0 is pushed. *)
Definition upsertEntry (clk : Clock) (playerName : string)
    (streakData : StreakData) (leaderboard : list LeaderboardEntry)
    : list LeaderboardEntry :=
  match
    list_find (λ entry, Entry.playerName entry = playerName) leaderboard
  with
  | Some (i, playerEntry) =>
      <[ i := Entry.mk (Entry.playerName playerEntry)
                (totalPoints streakData) (longestStreak streakData)
                (totalQuizzesPassed streakData) (now_iso clk)
                (Entry.rank playerEntry) ]> leaderboard
  | None =>
      leaderboard ++ [ Entry.mk playerName (totalPoints streakData)
                         (longestStreak streakData)
                         (totalQuizzesPassed streakData) (now_iso clk) 0 ]
  end.

(** The comparator given to [leaderboard.sort]. *)
Definition compareEntries (a b : LeaderboardEntry) : Z :=
  if Entry.totalPoints b =? Entry.totalPoints a then
    if Entry.longestStreak b =? Entry.longestStreak a
    then Entry.totalQuizzesPassed b - Entry.totalQuizzesPassed a
    else Entry.longestStreak b - Entry.longestStreak a
  else Entry.totalPoints b - Entry.totalPoints a.

(** [entry.rank = index + 1]. *)
Definition setRank (index : nat) (entry : LeaderboardEntry)
    : LeaderboardEntry :=
  Entry.mk (Entry.playerName entry) (Entry.totalPoints entry)
    (Entry.longestStreak entry) (Entry.totalQuizzesPassed entry)
    (Entry.lastActive entry) (Z.of_nat index + 1).

(** [updateLeaderboard(streakData)]. *)
Definition updateLeaderboard (clk : Clock) (streakData : StreakData)
    (st : Store) : Store :=
  let playerName := getPlayerName st in
  let leaderboard := loadLeaderboard st in
  let leaderboard := upsertEntry clk playerName streakData leaderboard in
  let leaderboard := array_sort compareEntries leaderboard in
  let leaderboard := imap setRank leaderboard in
  let topEntries := array_slice leaderboard 0 100 in
  saveLeaderboard topEntries st.

(** [getLeaderboard()]: a copy of every stored entry. *)
Definition getLeaderboard (st : Store) : list LeaderboardEntry :=
  (λ e, Entry.mk (Entry.playerName e) (Entry.totalPoints e)
          (Entry.longestStreak e) (Entry.totalQuizzesPassed e)
          (Entry.lastActive e) (Entry.rank e)) <$> loadLeaderboard st.

(** [getCurrentPlayerRank()]. *)
Definition getCurrentPlayerRank (st : Store) : Z :=
  let playerName := getPlayerName st in
  let leaderboard := getLeaderboard st in
  match
    list_find (λ entry, Entry.playerName entry = playerName) leaderboard
  with
  | Some (_, playerEntry) => Entry.rank playerEntry
  | None => 0
  end.

(** [getTopPlayers(limit)]. *)
Definition getTopPlayers (limit : Z) (st : Store) : list LeaderboardEntry :=
  array_slice (getLeaderboard st) 0 limit.

(** [getPlayersAroundRank(playerRank, range)]. *)
Definition getPlayersAroundRank (playerRank range : Z) (st : Store)
    : list LeaderboardEntry :=
  let leaderboard := getLeaderboard st in
  let startIndex := Z.max 0 (playerRank - range - 1) in
  let endIndex := Z.min (Z.of_nat (length leaderboard)) (playerRank + range) in
  array_slice leaderboard startIndex endIndex.

(** [clearLeaderboard()]. Modelled from the spec: [clearLeaderboardStorage]
    of [localDatabase] deletes the persisted roster; the next read yields
    the empty roster. (The cookie variant deletes the cookie.) *)
Definition clearLeaderboard (st : Store) : Store :=
  mkStore (streak_item st) (player_name_item st) [].

End LeaderboardManager.

(** ** The vocabulary of the specification *)

(** The invariant of the streak state. *)
Definition streak_invariant (s : StreakData) : Prop :=
  (0 < currentStreak s -> isInStreak s = true)
  /\ (isInStreak s = true -> currentStreak s = consecutiveCorrectAnswers s).

(** The sort key of an entry and the order of the leaderboard: descending
    by points, then by longest streak, then by quizzes passed. *)
Definition sortKey (e : LeaderboardEntry) : Z * Z * Z :=
  (Entry.totalPoints e, Entry.longestStreak e, Entry.totalQuizzesPassed e).

Definition key_ge (a b : LeaderboardEntry) : Prop :=
  Entry.totalPoints b < Entry.totalPoints a
  \/ (Entry.totalPoints a = Entry.totalPoints b
      /\ (Entry.longestStreak b < Entry.longestStreak a
          \/ (Entry.longestStreak a = Entry.longestStreak b
              /\ Entry.totalQuizzesPassed b <= Entry.totalQuizzesPassed a))).

(** Everything of an entry but its rank. *)
Definition payload (e : LeaderboardEntry) : string * Z * Z * Z * string :=
  (Entry.playerName e, Entry.totalPoints e, Entry.longestStreak e,
   Entry.totalQuizzesPassed e, Entry.lastActive e).

(** The entries of [l] at the indices [i] with [lo <= i < hi], in order. *)
Definition window {A : Type} (l : list A) (lo hi : Z) : list A :=
  (filter (λ p, lo <= p.1 /\ p.1 < hi)
     (imap (λ i x, (Z.of_nat i, x)) l)).*2.

(** The streak state that a run of answers leaves in the store. *)
Definition stateAfter (answers : list bool) (st : Store) : option StreakData :=
  match recordAnswers answers st with
  | Some (st', _) => StreakManager.getStreakData st'
  | None => None
  end.

(** The whole days between the last quiz and now; none when there is no
    date of a last quiz (the field is empty or is not a date). *)
Definition elapsedDays (clk : Clock) (s : StreakData) : option Z :=
  if String.eqb (lastQuizDate s) "" then None
  else (λ t, (now_ms clk - t) / StreakManager.msPerDay)
         <$> date_ms clk (lastQuizDate s).

Definition is_number (v : jsval) : Prop := exists n, v = Some (JNum n).
Definition is_string (v : jsval) : Prop := exists s, v = Some (JStr s).

(** The five required fields have the kinds that [importStreakData] asks
    for. *)
Definition required_kinds (data : json) : Prop :=
  is_number (prop data "currentStreak")
  /\ is_number (prop data "longestStreak")
  /\ is_string (prop data "lastQuizDate")
  /\ is_number (prop data "totalQuizzesPassed")
  /\ is_number (prop data "totalQuizzesTaken").

(** A stored record with seven consecutive correct answers and no streak:
    only an import or an edited store produces it. *)
Definition dormantStore : Store :=
  StreakManager.setItem
    (JObj [ ("currentStreak", JNum 0); ("longestStreak", JNum 0);
            ("lastQuizDate", JStr ""); ("totalQuizzesPassed", JNum 0);
            ("totalQuizzesTaken", JNum 0);
            ("consecutiveCorrectAnswers", JNum 7) ])
    emptyStore.

(** A backup that passes the checks of [importStreakData] and states a
    streak of 5 without the fields that go with it. *)
Definition lopsidedBackup : json :=
  JObj [ ("currentStreak", JNum 5); ("longestStreak", JNum 5);
         ("lastQuizDate", JStr ""); ("totalQuizzesPassed", JNum 0);
         ("totalQuizzesTaken", JNum 0) ].

(** A clock ten days after the epoch, on which every non-empty string is the
    date of the epoch. *)
Definition tenDaysClock : Clock :=
  mkClock (10 * StreakManager.msPerDay)
    (λ s, if String.eqb s "" then None else Some 0)
    "Sun Jan 11 1970" "1970-01-11T00:00:00.000Z".

Definition activeStore : Store :=
  StreakManager.saveStreakData
    (mkStreakData 4 4 "Thu Jan 01 1970" 1 1 2 4 true) emptyStore.

(** The statistics of a player, as the leaderboard reads them from a streak
    record. *)
Definition statsOf (points longest passed : Z) : StreakData :=
  mkStreakData 0 longest "" passed passed points 0 false.

(** The player sets a name and submits, as the name dialog of the
    application does. *)
Definition submitAs (clk : Clock) (name : string) (streakData : StreakData)
    (st : Store) : Store :=
  LeaderboardManager.updateLeaderboard clk streakData
    (LeaderboardManager.setPlayerName name st).

(** A full roster: a hundred players with distinct one-letter names and
    points from 200 downwards; the current player is not among them. *)
Definition crowdedStore : Store :=
  mkStore None (Some "newcomer")
    ((λ i, Entry.mk (String (Ascii.ascii_of_nat (33 + i)) "")
             (200 - Z.of_nat i) 1 1 "1970-01-01T00:00:00.000Z"
             (Z.of_nat i + 1)) <$> seq 0 100).

(** A roster of five. *)
Definition fiveStore : Store :=
  mkStore None (Some "Study Pro")
    [ Entry.mk "Quiz Master" 150 25 20 "1970-01-01T00:00:00.000Z" 1;
      Entry.mk "Study Pro" 128 18 16 "1970-01-01T00:00:00.000Z" 2;
      Entry.mk "Brain Trainer" 95 15 12 "1970-01-01T00:00:00.000Z" 3;
      Entry.mk "Knowledge Seeker" 87 12 11 "1970-01-01T00:00:00.000Z" 4;
      Entry.mk "Learner123" 76 10 9 "1970-01-01T00:00:00.000Z" 5 ].

(** ** The calls of the application into the two engines *)

Module StudyEZApp.

(** The end of [showResults]: the quiz statistics are updated and the
    record returned goes to the leaderboard. *)
Definition showResults (clk : Clock) (passed : bool) (st : Store)
    : option (Store * StreakData) :=
  match StreakManager.updateQuizStats clk passed st with
  | None => None
  | Some (st1, currentStreakData) =>
      Some (LeaderboardManager.updateLeaderboard clk currentStreakData st1,
            currentStreakData)
  end.

(** [savePlayerName()] and [savePlayerNameFromSettings()], on the trimmed
    text of the input field and the record the application holds. *)
Definition savePlayerName (clk : Clock) (name : string)
    (currentStreakData : StreakData) (st : Store) : Store :=
  if negb (String.eqb name "") && (0 <? Z.of_nat (String.length name)) then
    LeaderboardManager.updateLeaderboard clk currentStreakData
      (LeaderboardManager.setPlayerName name st)
  else st.


End StudyEZApp.

(** ** The quiz types and QuizManager *)

Module Answer.
Record Answer : Type := mk { id : string; text : string }.
End Answer.

Module Question.
Record Question : Type := mk {
  id : string;
  text : string;
  answers : list Answer.Answer;
  correctAnswerId : string;
  explanation : option string
}.
End Question.

Inductive Difficulty : Type := easy | medium | hard.

Module Quiz.
Record Quiz : Type := mk {
  id : string;
  title : string;
  description : string;
  difficulty : Difficulty;
  passingScore : Z;
  questions : list Question.Question;
  timeLimit : option Z;
  category : option string;
  theme : option string
}.
End Quiz.

Module UserAnswer.
Record UserAnswer : Type := mk {
  questionId : string;
  selectedAnswerId : string;
  isCorrect : bool;
  question : Question.Question
}.
End UserAnswer.

(** [percentage] is [None] when it is [NaN]. *)
Module QuizResult.
Record QuizResult : Type := mk {
  quizId : string;
  score : Z;
  totalQuestions : Z;
  percentage : option Z;
  passed : bool;
  answers : list UserAnswer.UserAnswer;
  completedAt : Z
}.
End QuizResult.

Record QuizState : Type := mkQuizState {
  currentQuiz : option Quiz.Quiz;
  currentQuestionIndex : Z;
  userAnswers : gmap string string;
  startTime : option Z;
  isCompleted : bool
}.

(** A method returns or throws [new Error(message)]. *)
Inductive outcome (A : Type) : Type :=
  | Returned (a : A)
  | Thrown (message : string).
Arguments Returned {A} a.
Arguments Thrown {A} message.

(** The methods of a [QuizManager], on its [state]. The callback
    [onStateChange], which redraws the page from a copy of the state, is
    not part of the embedding. [roundPercent n d] stands for
    [Math.round((n / d) * 100)], computed in doubles, [None] for [NaN]. *)
Module QuizManager.

(** The state that the constructor and [reset()] set. *)
Definition initialState : QuizState :=
  mkQuizState None 0 ∅ None false.

Definition reset (s : QuizState) : QuizState := initialState.

Definition startQuiz (clk : Clock) (quiz : Quiz.Quiz) (s : QuizState)
    : QuizState :=
  mkQuizState (Some quiz) 0 ∅ (Some (now_ms clk)) false.

(** [questions[currentQuestionIndex] || null]. *)
Definition getCurrentQuestion (s : QuizState) : option Question.Question :=
  match currentQuiz s with
  | None => None
  | Some quiz =>
      if 0 <=? currentQuestionIndex s
      then Quiz.questions quiz !! Z.to_nat (currentQuestionIndex s)
      else None
  end.

Definition answerQuestion (answerId : string) (s : QuizState)
    : outcome QuizState :=
  match currentQuiz s with
  | None => Thrown "No active quiz"
  | Some _ =>
      if isCompleted s then Thrown "No active quiz"
      else
        match getCurrentQuestion s with
        | None => Thrown "No current question"
        | Some currentQuestion =>
            Returned
              (mkQuizState (currentQuiz s) (currentQuestionIndex s)
                 (<[Question.id currentQuestion := answerId]> (userAnswers s))
                 (startTime s) (isCompleted s))
        end
  end.

Definition setIndex (index : Z) (s : QuizState) : QuizState :=
  mkQuizState (currentQuiz s) index (userAnswers s) (startTime s)
    (isCompleted s).

Definition nextQuestion (s : QuizState) : outcome (QuizState * bool) :=
  match currentQuiz s with
  | None => Thrown "No active quiz"
  | Some quiz =>
      if currentQuestionIndex s
         <? Z.of_nat (length (Quiz.questions quiz)) - 1
      then Returned (setIndex (currentQuestionIndex s + 1) s, true)
      else Returned (s, false)
  end.

Definition previousQuestion (s : QuizState) : outcome (QuizState * bool) :=
  match currentQuiz s with
  | None => Thrown "No active quiz"
  | Some quiz =>
      if 0 <? currentQuestionIndex s
      then Returned (setIndex (currentQuestionIndex s - 1) s, true)
      else Returned (s, false)
  end.

Definition goToQuestion (index : Z) (s : QuizState)
    : outcome (QuizState * bool) :=
  match currentQuiz s with
  | None => Thrown "No active quiz"
  | Some quiz =>
      if (0 <=? index) && (index <? Z.of_nat (length (Quiz.questions quiz)))
      then Returned (setIndex index s, true)
      else Returned (s, false)
  end.

(** One turn of the loop of [completeQuiz]: the count of correct answers
    and the array [userAnswers] of the method. *)
Definition gradeQuestion (recorded : gmap string string)
    (acc : Z * list UserAnswer.UserAnswer) (question : Question.Question)
    : Z * list UserAnswer.UserAnswer :=
  let '(correctCount, answers) := acc in
  let selectedAnswerId := default "" (recorded !! Question.id question) in
  let isCorrect :=
    String.eqb selectedAnswerId (Question.correctAnswerId question) in
  (if isCorrect then correctCount + 1 else correctCount,
   answers ++ [UserAnswer.mk (Question.id question) selectedAnswerId
                 isCorrect question]).

Definition completeQuiz (clk : Clock) (roundPercent : Z -> Z -> option Z)
    (s : QuizState) : outcome (QuizState * QuizResult.QuizResult) :=
  match currentQuiz s, startTime s with
  | Some quiz, Some _ =>
      let '(correctCount, answers) :=
        foldl (gradeQuestion (userAnswers s)) (0, []) (Quiz.questions quiz) in
      let totalQuestions := Z.of_nat (length (Quiz.questions quiz)) in
      let percentage := roundPercent correctCount totalQuestions in
      let passed :=
        match percentage with
        | Some p => Quiz.passingScore quiz <=? p
        | None => false
        end in
      Returned
        (mkQuizState (currentQuiz s) (currentQuestionIndex s)
           (userAnswers s) (startTime s) true,
         QuizResult.mk (Quiz.id quiz) correctCount totalQuestions percentage
           passed answers (now_ms clk))
  | _, _ => Thrown "No active quiz"
  end.

Definition isCurrentQuestionAnswered (s : QuizState) : bool :=
  match getCurrentQuestion s with
  | None => false
  | Some currentQuestion =>
      bool_decide (is_Some (userAnswers s !! Question.id currentQuestion))
  end.

Definition getCurrentQuestionAnswer (s : QuizState) : option string :=
  match getCurrentQuestion s with
  | None => None
  | Some currentQuestion => userAnswers s !! Question.id currentQuestion
  end.

Definition areAllQuestionsAnswered (s : QuizState) : bool :=
  match currentQuiz s with
  | None => false
  | Some quiz =>
      forallb (λ question,
                 bool_decide (is_Some (userAnswers s !! Question.id question)))
        (Quiz.questions quiz)
  end.

Definition getProgress (roundPercent : Z -> Z -> option Z) (s : QuizState)
    : option Z :=
  match currentQuiz s with
  | None => Some 0
  | Some quiz =>
      roundPercent (currentQuestionIndex s + 1)
        (Z.of_nat (length (Quiz.questions quiz)))
  end.

End QuizManager.

(** The buttons of the quiz screen, as calls of the manager. *)
Inductive QuizCall : Type :=
  | CallNext
  | CallPrevious
  | CallGoTo (index : Z)
  | CallPick (answerId : string).

Definition doQuizCall (c : QuizCall) (s : QuizState) : outcome QuizState :=
  match c with
  | CallNext =>
      match QuizManager.nextQuestion s with
      | Returned (s', _) => Returned s'
      | Thrown m => Thrown m
      end
  | CallPrevious =>
      match QuizManager.previousQuestion s with
      | Returned (s', _) => Returned s'
      | Thrown m => Thrown m
      end
  | CallGoTo index =>
      match QuizManager.goToQuestion index s with
      | Returned (s', _) => Returned s'
      | Thrown m => Thrown m
      end
  | CallPick answerId => QuizManager.answerQuestion answerId s
  end.

Fixpoint runQuizCalls (calls : list QuizCall) (s : QuizState)
    : outcome QuizState :=
  match calls with
  | [] => Returned s
  | c :: rest =>
      match doQuizCall c s with
      | Returned s' => runQuizCalls rest s'
      | Thrown m => Thrown m
      end
  end.

(** An active quiz with the current question in range. *)
Definition quiz_active (quiz : Quiz.Quiz) (s : QuizState) : Prop :=
  currentQuiz s = Some quiz
  /\ 0 <= currentQuestionIndex s < Z.of_nat (length (Quiz.questions quiz))
  /\ isCompleted s = false.

(** A quiz of two questions, a state in which the first is answered, and
    what [completeQuiz] makes of it with a percentage rounded down. *)
Definition twoQuestions : Quiz.Quiz :=
  Quiz.mk "quiz1" "Basics" "" medium 70
    [ Question.mk "q1" "One?" [Answer.mk "a1" "yes"; Answer.mk "a2" "no"]
        "a1" None;
      Question.mk "q2" "Two?" [Answer.mk "a1" "yes"; Answer.mk "a2" "no"]
        "a2" None ]
    None None None.

Definition halfAnswered : QuizState :=
  mkQuizState (Some twoQuestions) 1 (<["q1" := "a1"]> ∅) (Some 0) false.

Definition halfCompleted : QuizState :=
  mkQuizState (Some twoQuestions) 1 (<["q1" := "a1"]> ∅) (Some 0) true.

Definition halfResult : QuizResult.QuizResult :=
  QuizResult.mk "quiz1" 1 2 (Some 50) false
    [ UserAnswer.mk "q1" "a1" true
        (Question.mk "q1" "One?" [Answer.mk "a1" "yes"; Answer.mk "a2" "no"]
           "a1" None);
      UserAnswer.mk "q2" "" false
        (Question.mk "q2" "Two?" [Answer.mk "a1" "yes"; Answer.mk "a2" "no"]
           "a2" None) ]
    (10 * StreakManager.msPerDay).

(** ** Runs of calls *)

(** A call of the application into the streak engine. *)
Inductive StreakCall : Type :=
  | CallAnswer (isCorrect : bool)
  | CallQuizStats (clk : Clock) (passed : bool)
  | CallReset.

Definition doCall (c : StreakCall) (st : Store) : option Store :=
  match c with
  | CallAnswer isCorrect =>
      fst <$> StreakManager.updateStreakForAnswer isCorrect st
  | CallQuizStats clk passed =>
      fst <$> StreakManager.updateQuizStats clk passed st
  | CallReset => Some (StreakManager.resetStreak st).1
  end.

Fixpoint runCalls (calls : list StreakCall) (st : Store) : option Store :=
  match calls with
  | [] => Some st
  | c :: rest =>
      match doCall c st with
      | Some st1 => runCalls rest st1
      | None => None
      end
  end.

(** The records that successive calls of [updateStreakForAnswer] return. *)
Fixpoint answerTrace (answers : list bool) (st : Store)
    : option (list StreakData) :=
  match answers with
  | [] => Some []
  | isCorrect :: rest =>
      match StreakManager.updateStreakForAnswer isCorrect st with
      | None => None
      | Some (st1, (data, _)) =>
          match answerTrace rest st1 with
          | None => None
          | Some trace => Some (data :: trace)
          end
      end
  end.

(** What holds of the streak record in every state that answers, quiz
    outcomes and resets lead to from the default. *)
Definition engine_invariant (s : StreakData) : Prop :=
  0 <= consecutiveCorrectAnswers s
  /\ isInStreak s = (3 <=? consecutiveCorrectAnswers s)
  /\ currentStreak s
     = (if isInStreak s then consecutiveCorrectAnswers s else 0)
  /\ currentStreak s <= longestStreak s
  /\ 0 <= totalPoints s
  /\ 0 <= totalQuizzesPassed s <= totalQuizzesTaken s.

(** The entry that [updateLeaderboard] writes for a player. *)
Definition entryOf (clk : Clock) (name : string) (sd : StreakData) (r : Z)
    : LeaderboardEntry :=
  Entry.mk name (totalPoints sd) (longestStreak sd) (totalQuizzesPassed sd)
    (now_iso clk) r.

(** An entry with its time of last activity replaced, when it is the entry
    of [name]. *)
Definition touch (clk : Clock) (name : string) (e : LeaderboardEntry)
    : LeaderboardEntry :=
  if String.eqb (Entry.playerName e) name
  then Entry.mk (Entry.playerName e) (Entry.totalPoints e)
         (Entry.longestStreak e) (Entry.totalQuizzesPassed e) (now_iso clk)
         (Entry.rank e)
  else e.

(** The eight fields of a stored streak record. *)
Definition streakKeys : list string :=
  [ "currentStreak"; "longestStreak"; "lastQuizDate"; "totalQuizzesPassed";
    "totalQuizzesTaken"; "totalPoints"; "consecutiveCorrectAnswers";
    "isInStreak" ].

(** * Properties of the streak engine *)

Section StreakFacts.
Import StreakManager.

Lemma or_number_num n : or_number (Some (JNum n)) = Some n.
Proof.
  unfold or_number; simpl.
  destruct (n =? 0) eqn:E; simpl; [|done].
  apply Z.eqb_eq in E. by subst.
Qed.

Lemma or_string_str s : or_string (Some (JStr s)) = Some s.
Proof.
  unfold or_string; simpl.
  destruct (String.eqb s "") eqn:E; simpl; [|done].
  apply String.eqb_eq in E. by subst.
Qed.

Lemma or_boolean_bool b : or_boolean (Some (JBool b)) = Some b.
Proof. by destruct b. Qed.

(** Reading back what was saved. *)
Lemma getStreakData_save d st : getStreakData (saveStreakData d st) = Some d.
Proof.
  unfold getStreakData, saveStreakData, setItem, to_json, readFields; simpl.
  rewrite !or_number_num, or_string_str, or_boolean_bool; simpl.
  by destruct d.
Qed.

Lemma save_slots d st :
  player_name_item (saveStreakData d st) = player_name_item st
  /\ leaderboard_item (saveStreakData d st) = leaderboard_item st.
Proof. done. Qed.

(** The points of one answer. *)
Lemma answerUpdate_points isCorrect s :
  let '(d, p) := answerUpdate isCorrect s in
  (p = 0 \/ p = 1) /\ totalPoints d = totalPoints s + p.
Proof.
  unfold answerUpdate.
  destruct isCorrect; simpl; [|lia].
  destruct (_ && _); simpl.
  - destruct (_ <? _); simpl; lia.
  - destruct (isInStreak s); simpl; [|lia].
    destruct (_ <? _); simpl; lia.
Qed.

(** One call, as a function of the state read from the store. *)
Lemma updateStreakForAnswer_read isCorrect st s :
  getStreakData st = Some s ->
  updateStreakForAnswer isCorrect st
  = Some (saveStreakData (answerUpdate isCorrect s).1 st,
          answerUpdate isCorrect s).
Proof.
  intros Hs. unfold updateStreakForAnswer. rewrite Hs; simpl.
  by destruct (answerUpdate isCorrect s).
Qed.

(** A run of answers never leaves the typed states, and its points add
    up. *)
Lemma recordAnswers_total answers : forall st s,
  getStreakData st = Some s ->
  exists st' points s',
    recordAnswers answers st = Some (st', points)
    /\ getStreakData st' = Some s'
    /\ Forall (λ p, p = 0 \/ p = 1) points
    /\ totalPoints s' = totalPoints s + sumZ points.
Proof.
  induction answers as [|a answers IH]; intros st s Hs; simpl.
  - exists st, [], s. repeat split; auto. simpl. lia.
  - rewrite (updateStreakForAnswer_read a st s Hs).
    pose proof (answerUpdate_points a s) as Hp.
    destruct (answerUpdate a s) as [d p]; simpl in *.
    destruct (IH (saveStreakData d st) d (getStreakData_save d st))
      as (st' & points & s' & Hrun & Hread & Hall & Hsum).
    rewrite Hrun. exists st', (p :: points), s'.
    repeat split; auto.
    + constructor; tauto.
    + simpl. lia.
Qed.

Lemma sumZ_nonneg points :
  Forall (λ p, p = 0 \/ p = 1) points -> 0 <= sumZ points.
Proof. induction 1; simpl; lia. Qed.

Lemma recordAnswers_app answers1 : forall answers2 st st1 points1,
  recordAnswers answers1 st = Some (st1, points1) ->
  recordAnswers (answers1 ++ answers2) st
  = match recordAnswers answers2 st1 with
    | Some (st2, points2) => Some (st2, points1 ++ points2)
    | None => None
    end.
Proof.
  induction answers1 as [|a answers1 IH]; intros answers2 st st1 points1;
    simpl.
  - intros [= <- <-]. by destruct (recordAnswers answers2 st) as [[??]|].
  - destruct (updateStreakForAnswer a st) as [[st0 [d p]]|]; [|done].
    destruct (recordAnswers answers1 st0) as [[st' pts]|] eqn:E; [|done].
    intros [= <- <-].
    rewrite (IH answers2 st0 st' pts E).
    by destruct (recordAnswers answers2 st') as [[??]|].
Qed.

End StreakFacts.

Lemma typeof_number v : String.eqb (typeof v) "number" = true <-> is_number v.
Proof.
  unfold is_number. split.
  - destruct v as [[| | n | | |]|]; simpl; try discriminate. by exists n.
  - by intros [n ->].
Qed.

Lemma typeof_string v : String.eqb (typeof v) "string" = true <-> is_string v.
Proof.
  unfold is_string. split.
  - destruct v as [[| | | s | |]|]; simpl; try discriminate. by exists s.
  - by intros [s ->].
Qed.

Lemma required_kinds_null : ~ required_kinds JNull.
Proof. by intros [[n Hn] _]. Qed.

(** The test of [importStreakData] is the predicate [required_kinds]. *)
Lemma import_test data :
  String.eqb (typeof (prop data "currentStreak")) "number"
  && String.eqb (typeof (prop data "longestStreak")) "number"
  && String.eqb (typeof (prop data "lastQuizDate")) "string"
  && String.eqb (typeof (prop data "totalQuizzesPassed")) "number"
  && String.eqb (typeof (prop data "totalQuizzesTaken")) "number" = true
  <-> required_kinds data.
Proof.
  unfold required_kinds.
  rewrite !andb_true_iff, !typeof_number, typeof_string. tauto.
Qed.

(** The two outcomes of an import. *)
Lemma importStreakData_cases parsed st :
  (exists data, parsed = Some data /\ required_kinds data /\ data <> JNull
     /\ StreakManager.importStreakData parsed st
        = (StreakManager.setItem data st, true))
  \/ ((~ exists data, parsed = Some data /\ required_kinds data)
      /\ StreakManager.importStreakData parsed st = (st, false)).
Proof.
  destruct parsed as [data|]; [|right; split; [by intros (? & ? & _)|done]].
  assert (data = JNull \/ data <> JNull) as [->|Hnull]
    by (destruct data; auto).
  { right. split; [|done]. intros (d & [= <-] & Hk).
    by apply required_kinds_null. }
  pose proof (import_test data) as Htest.
  assert (StreakManager.importStreakData (Some data) st
          = if String.eqb (typeof (prop data "currentStreak")) "number"
               && String.eqb (typeof (prop data "longestStreak")) "number"
               && String.eqb (typeof (prop data "lastQuizDate")) "string"
               && String.eqb (typeof (prop data "totalQuizzesPassed")) "number"
               && String.eqb (typeof (prop data "totalQuizzesTaken")) "number"
            then (StreakManager.setItem data st, true) else (st, false))
    as -> by (by destruct data).
  destruct (_ && _).
  - left. exists data. split; [done|]. split; [by apply Htest|done].
  - right. split; [|done]. intros (d & [= <-] & Hk).
    apply Htest in Hk. discriminate.
Qed.

(** C1: from the default state the answers true, true, true, true, false
    give: after the third answer an active streak of 3 and the first point;
    after the fourth a streak of 4 and 2 points; after the fifth no streak
    and still 2 points; after one or two correct answers no streak. *)
Theorem C1_streak_scenario :
  StreakManager.getStreakData emptyStore = Some StreakManager.defaultData
  /\ StreakManager.defaultData = mkStreakData 0 0 "" 0 0 0 0 false
  /\ (exists s1, stateAfter [true] emptyStore = Some s1
                 /\ isInStreak s1 = false)
  /\ (exists s2, stateAfter [true; true] emptyStore = Some s2
                 /\ isInStreak s2 = false)
  /\ (exists s3, stateAfter [true; true; true] emptyStore = Some s3
                 /\ isInStreak s3 = true /\ currentStreak s3 = 3
                 /\ totalPoints s3 = 1)
  /\ (exists s4, stateAfter [true; true; true; true] emptyStore = Some s4
                 /\ currentStreak s4 = 4 /\ totalPoints s4 = 2)
  /\ (exists s5, stateAfter [true; true; true; true; false] emptyStore = Some s5
                 /\ currentStreak s5 = 0 /\ isInStreak s5 = false
                 /\ totalPoints s5 = 2)
  /\ (snd <$> recordAnswers [true; true; true; true; false] emptyStore)
     = Some [0; 0; 1; 1; 0].
Proof.
  repeat split; try reflexivity; eexists; (split; [vm_compute; reflexivity|]);
    repeat split.
Qed.

(** C2: one call of updateStreakForAnswer returns 0 or 1 as pointsEarned
    and a state whose totalPoints is the former totalPoints plus
    pointsEarned; over any sequence of calls totalPoints never decreases
    and grows by the sum of the pointsEarned returned. *)
Theorem C2_points_monotone (st : Store) (s : StreakData) :
  StreakManager.getStreakData st = Some s ->
  (forall isCorrect, exists st' d p,
      StreakManager.updateStreakForAnswer isCorrect st = Some (st', (d, p))
      /\ StreakManager.getStreakData st' = Some d
      /\ (p = 0 \/ p = 1)
      /\ totalPoints d = totalPoints s + p)
  /\ (forall answers1 answers2, exists st1 points1 s1 st2 points2 s2,
      recordAnswers answers1 st = Some (st1, points1)
      /\ StreakManager.getStreakData st1 = Some s1
      /\ recordAnswers (answers1 ++ answers2) st = Some (st2, points1 ++ points2)
      /\ StreakManager.getStreakData st2 = Some s2
      /\ totalPoints s1 = totalPoints s + sumZ points1
      /\ totalPoints s2 = totalPoints s1 + sumZ points2
      /\ totalPoints s1 <= totalPoints s2).
Proof.
  intros Hs. split.
  - intros isCorrect.
    rewrite (updateStreakForAnswer_read isCorrect st s Hs).
    pose proof (answerUpdate_points isCorrect s) as Hp.
    destruct (StreakManager.answerUpdate isCorrect s) as [d p]; simpl in *.
    exists (StreakManager.saveStreakData d st), d, p.
    split; [done|]. split; [apply getStreakData_save|]. done.
  - intros answers1 answers2.
    destruct (recordAnswers_total answers1 st s Hs)
      as (st1 & points1 & s1 & Hrun1 & Hread1 & Hall1 & Hsum1).
    destruct (recordAnswers_total answers2 st1 s1 Hread1)
      as (st2 & points2 & s2 & Hrun2 & Hread2 & Hall2 & Hsum2).
    exists st1, points1, s1, st2, points2, s2.
    repeat split; try done.
    + rewrite (recordAnswers_app answers1 answers2 st st1 points1 Hrun1).
      by rewrite Hrun2.
    + pose proof (sumZ_nonneg points2 Hall2). lia.
Qed.

Lemma C2_points_monotone_witness :
  exists st' d p,
    StreakManager.updateStreakForAnswer true activeStore = Some (st', (d, p))
    /\ StreakManager.getStreakData st' = Some d
    /\ (p = 0 \/ p = 1)
    /\ totalPoints d = 2 + p.
Proof.
  apply (proj1 (C2_points_monotone activeStore
                  (mkStreakData 4 4 "Thu Jan 01 1970" 1 1 2 4 true)
                  eq_refl) true).
Defined.

(** C9: when the streak is not active and a correct answer brings the
    consecutive count to 3 or more (also from a count already at 3 or
    above), that call activates the streak: isInStreak becomes true,
    currentStreak becomes the new consecutive count and the call earns 1
    point. *)
Theorem C9_activation_from_any_count (st : Store) (s : StreakData) :
  StreakManager.getStreakData st = Some s ->
  isInStreak s = false ->
  3 <= consecutiveCorrectAnswers s + 1 ->
  exists st' d,
    StreakManager.updateStreakForAnswer true st = Some (st', (d, 1))
    /\ StreakManager.getStreakData st' = Some d
    /\ isInStreak d = true
    /\ consecutiveCorrectAnswers d = consecutiveCorrectAnswers s + 1
    /\ currentStreak d = consecutiveCorrectAnswers s + 1
    /\ totalPoints d = totalPoints s + 1.
Proof.
  intros Hs Hin Hge.
  rewrite (updateStreakForAnswer_read true st s Hs).
  unfold StreakManager.answerUpdate; simpl.
  rewrite Hin; simpl. rewrite andb_true_r.
  apply Z.leb_le in Hge. rewrite Hge; simpl.
  eexists _, _. split; [reflexivity|].
  split; [apply getStreakData_save|].
  destruct (_ <? _); simpl; auto.
Qed.

Lemma C9_activation_from_any_count_witness :
  exists st' d,
    StreakManager.updateStreakForAnswer true dormantStore = Some (st', (d, 1))
    /\ StreakManager.getStreakData st' = Some d
    /\ isInStreak d = true
    /\ consecutiveCorrectAnswers d = 7 + 1
    /\ currentStreak d = 7 + 1
    /\ totalPoints d = 0 + 1.
Proof.
  apply (C9_activation_from_any_count dormantStore
           (mkStreakData 0 0 "" 0 0 0 7 false));
    [reflexivity | reflexivity | simpl; lia].
Defined.

(** What [checkStreakExpiry] does when it fires: the invariant is lost. *)
Lemma checkStreakExpiry_breaks_invariant :
  exists s st' s',
    StreakManager.getStreakData activeStore = Some s
    /\ streak_invariant s
    /\ StreakManager.checkStreakExpiry tenDaysClock 7 activeStore
       = Some (st', true)
    /\ StreakManager.getStreakData st' = Some s'
    /\ ~ streak_invariant s'.
Proof.
  eexists _, _, _. split; [reflexivity|]. split; [by split|].
  split; [vm_compute; reflexivity|]. split; [reflexivity|].
  intros [_ H]. specialize (H eq_refl). discriminate H.
Qed.




(** C6: checkStreakExpiry changes the state only when currentStreak > 0 and
    the whole days elapsed since lastQuizDate exceed maxDaysInactive; it
    then sets currentStreak to 0, leaves the seven other fields as they
    are, persists and returns true. Otherwise the store is unchanged and
    the result is false. (A StreakState has currentStreak >= 0.) *)
Theorem C6_expiry_frame (clk : Clock) (maxDaysInactive : Z) (st : Store)
    (s : StreakData) :
  StreakManager.getStreakData st = Some s ->
  0 <= currentStreak s ->
  let expired :=
    0 < currentStreak s
    /\ exists days, elapsedDays clk s = Some days /\ maxDaysInactive < days in
  (expired ->
     exists st' s',
       StreakManager.checkStreakExpiry clk maxDaysInactive st = Some (st', true)
       /\ st' = StreakManager.saveStreakData s' st
       /\ StreakManager.getStreakData st' = Some s'
       /\ currentStreak s' = 0
       /\ consecutiveCorrectAnswers s' = consecutiveCorrectAnswers s
       /\ isInStreak s' = isInStreak s
       /\ longestStreak s' = longestStreak s
       /\ totalPoints s' = totalPoints s
       /\ totalQuizzesTaken s' = totalQuizzesTaken s
       /\ totalQuizzesPassed s' = totalQuizzesPassed s
       /\ lastQuizDate s' = lastQuizDate s)
  /\ (~ expired ->
     StreakManager.checkStreakExpiry clk maxDaysInactive st = Some (st, false)).
Proof.
  intros Hs Hnonneg expired. subst expired.
  unfold StreakManager.checkStreakExpiry, elapsedDays. rewrite Hs; simpl.
  destruct (String.eqb (lastQuizDate s) "") eqn:Hempty; simpl.
  { split; [|done]. by intros (_ & days & [=] & _). }
  destruct (currentStreak s =? 0) eqn:Hzero; simpl.
  { apply Z.eqb_eq in Hzero. split; [|done]. intros [Hpos _]. lia. }
  apply Z.eqb_neq in Hzero.
  destruct (date_ms clk (lastQuizDate s)) as [t|]; simpl.
  2:{ split; [|done]. by intros (_ & days & [=] & _). }
  destruct (maxDaysInactive <? (now_ms clk - t) / StreakManager.msPerDay)
    eqn:Hlate.
  - split.
    + intros _. eexists _, _. split; [reflexivity|]. split; [reflexivity|].
      split; [apply getStreakData_save|]. by repeat split.
    + intros Hnot. exfalso. apply Hnot. split; [lia|].
      eexists. split; [reflexivity|]. by apply Z.ltb_lt.
  - split; [|done].
    intros (_ & days & [= <-] & Hlt). apply Z.ltb_lt in Hlt. congruence.
Qed.

Lemma C6_expiry_frame_witness :
  exists st' s',
    StreakManager.checkStreakExpiry tenDaysClock 7 activeStore
    = Some (st', true)
    /\ st' = StreakManager.saveStreakData s' activeStore
    /\ StreakManager.getStreakData st' = Some s'
    /\ currentStreak s' = 0
    /\ consecutiveCorrectAnswers s' = 4
    /\ isInStreak s' = true
    /\ longestStreak s' = 4
    /\ totalPoints s' = 2
    /\ totalQuizzesTaken s' = 1
    /\ totalQuizzesPassed s' = 1
    /\ lastQuizDate s' = "Thu Jan 01 1970".
Proof.
  apply (proj1 (C6_expiry_frame tenDaysClock 7 activeStore
                  (mkStreakData 4 4 "Thu Jan 01 1970" 1 1 2 4 true)
                  eq_refl ltac:(simpl; lia))).
  split; [simpl; lia|].
  exists 10. split; [vm_compute; reflexivity | lia].
Defined.



Lemma import_rejected_example :
  StreakManager.importStreakData
    (Some (JObj [ ("currentStreak", JStr "5"); ("longestStreak", JNum 5);
                  ("lastQuizDate", JStr ""); ("totalQuizzesPassed", JNum 0);
                  ("totalQuizzesTaken", JNum 0) ])) activeStore
  = (activeStore, false).
Proof. reflexivity. Qed.

(** * Properties of the array methods *)

Section SortFacts.
Context {A : Type} (compareFn : A -> A -> Z).

Lemma sort_insert_perm x l : sort_insert compareFn x l ≡ₚ x :: l.
Proof.
  induction l as [|y l IH]; simpl; [done|].
  destruct (0 <? compareFn x y); [|done].
  rewrite IH. apply Permutation_swap.
Qed.

Lemma array_sort_perm l : array_sort compareFn l ≡ₚ l.
Proof.
  induction l as [|x l IH]; simpl; [done|].
  rewrite sort_insert_perm. by rewrite IH.
Qed.

Lemma array_sort_length l : length (array_sort compareFn l) = length l.
Proof. apply Permutation_length, array_sort_perm. Qed.

(** Stability: the elements of a class whose members never have to pass
    one another come out in the order in which they went in. *)
Section Stable.
Context (P : A -> Prop) `{!forall x, Decision (P x)}.
Hypothesis class_tied : forall x y, P x -> P y -> compareFn x y <= 0.

Lemma sort_insert_filter x l :
  filter P (sort_insert compareFn x l) = filter P (x :: l).
Proof using class_tied.
  induction l as [|y l IH]; simpl; [done|].
  destruct (0 <? compareFn x y) eqn:Hxy; [|done].
  apply Z.ltb_lt in Hxy.
  rewrite filter_cons, IH, !filter_cons.
  destruct (decide (P y)) as [Hy|Hy]; [|done].
  destruct (decide (P x)) as [Hx|Hx]; [|done].
  specialize (class_tied x y Hx Hy). lia.
Qed.

Lemma array_sort_filter l :
  filter P (array_sort compareFn l) = filter P l.
Proof using class_tied.
  induction l as [|x l IH]; simpl; [done|].
  rewrite sort_insert_filter, !filter_cons. by rewrite IH.
Qed.
End Stable.

(** Order: with a comparator that is antisymmetric and transitive the
    result is sorted by [compareFn a b <= 0]. *)
Section Ordered.
Hypothesis compare_flip : forall a b, 0 < compareFn a b -> compareFn b a <= 0.
Hypothesis compare_trans : forall a b c,
  compareFn a b <= 0 -> compareFn b c <= 0 -> compareFn a c <= 0.

Lemma sort_insert_sorted x l :
  StronglySorted (λ a b, compareFn a b <= 0) l ->
  StronglySorted (λ a b, compareFn a b <= 0) (sort_insert compareFn x l).
Proof using compare_flip compare_trans.
  induction 1 as [|y l Hsorted IH Hall]; simpl.
  - repeat constructor.
  - destruct (0 <? compareFn x y) eqn:Hxy.
    + apply Z.ltb_lt in Hxy. constructor; [done|].
      rewrite sort_insert_perm. constructor; [by apply compare_flip|done].
    + apply Z.ltb_ge in Hxy. constructor; [by constructor|].
      constructor; [done|].
      eapply Forall_impl; [exact Hall|]. simpl. eauto.
Qed.

Lemma array_sort_sorted l :
  StronglySorted (λ a b, compareFn a b <= 0) (array_sort compareFn l).
Proof using compare_flip compare_trans.
  induction l as [|x l IH]; simpl; [constructor|].
  by apply sort_insert_sorted.
Qed.
End Ordered.
End SortFacts.

Section ListFacts.
Context {A : Type}.

Lemma array_slice_take (l : list A) (n : Z) :
  0 <= n -> array_slice l 0 n = take (Z.to_nat n) l.
Proof.
  intros Hn. unfold array_slice. cbv zeta.
  change (0 <? 0) with false. cbv iota.
  destruct (n <? 0) eqn:Hneg; [apply Z.ltb_lt in Hneg; lia|].
  rewrite (Z.min_l 0) by lia. rewrite Z.sub_0_r.
  change (Z.to_nat 0) with 0%nat. rewrite drop_0.
  destruct (Z.min_spec n (Z.of_nat (length l))) as [[? ->]|[? ->]]; [done|].
  rewrite Nat2Z.id, !take_ge; [done|lia|lia].
Qed.

(** Taking from a suffix: only the part of the count that the suffix can
    serve matters. *)
Lemma take_drop_clip (l : list A) (k n m : nat) :
  (n `min` (length l - k) = m `min` (length l - k))%nat ->
  take n (drop k l) = take m (drop k l).
Proof.
  intros Heq.
  rewrite <- (take_ge (take n (drop k l)) (length l - k)%nat)
    by (rewrite length_take, length_drop; lia).
  rewrite <- (take_ge (take m (drop k l)) (length l - k)%nat)
    by (rewrite length_take, length_drop; lia).
  rewrite !take_take, (Nat.min_comm _ n), (Nat.min_comm _ m). by rewrite Heq.
Qed.

(** [window] with positions counted from [off]. *)
Lemma window_from (l : list A) : forall (off lo hi : Z),
  (filter (λ p : Z * A, lo <= p.1 /\ p.1 < hi)
     (imap (λ i x, (off + Z.of_nat i, x)) l)).*2
  = take (Z.to_nat (hi - Z.max lo off)) (drop (Z.to_nat (lo - off)) l).
Proof.
  induction l as [|x l IH]; intros off lo hi.
  - by rewrite drop_nil, take_nil.
  - rewrite imap_cons, filter_cons.
    rewrite (imap_ext _ (λ i y, (off + 1 + Z.of_nat i, y)))
      by (intros i y _; simpl; f_equal; lia).
    simpl fst. rewrite Z.add_0_r.
    destruct (decide (lo <= off /\ off < hi)) as [[Hlo Hhi]|Hout].
    + rewrite fmap_cons, IH. simpl snd.
      replace (Z.to_nat (lo - off)) with 0%nat by lia.
      replace (Z.to_nat (lo - (off + 1))) with 0%nat by lia.
      rewrite !drop_0.
      replace (Z.to_nat (hi - lo `max` off))
        with (S (Z.to_nat (hi - lo `max` (off + 1)))) by lia.
      done.
    + rewrite IH.
      destruct (decide (lo <= off)) as [Hlo|Hlo].
      * replace (Z.to_nat (hi - lo `max` (off + 1))) with 0%nat by lia.
        replace (Z.to_nat (hi - lo `max` off)) with 0%nat by lia.
        by rewrite !take_0.
      * replace (Z.to_nat (lo - off)) with (S (Z.to_nat (lo - (off + 1))))
          by lia.
        simpl drop. do 2 f_equal. lia.
Qed.

Lemma window_take_drop (l : list A) (lo hi : Z) :
  0 <= lo ->
  window l lo hi = take (Z.to_nat (hi - lo)) (drop (Z.to_nat lo) l).
Proof.
  intros Hlo. unfold window.
  rewrite (imap_ext _ (λ i x, (0 + Z.of_nat i, x))) by done.
  rewrite window_from. rewrite Z.max_l by lia. by rewrite Z.sub_0_r.
Qed.

(** [slice] with a start that is not negative, as a window. *)
Lemma array_slice_window (l : list A) (start end_ : Z) :
  0 <= start ->
  array_slice l start end_
  = window l start
      (if end_ <? 0 then Z.of_nat (length l) + end_
       else Z.min end_ (Z.of_nat (length l))).
Proof.
  intros Hstart. rewrite window_take_drop by done.
  unfold array_slice. cbv zeta.
  destruct (start <? 0) eqn:Hneg; [apply Z.ltb_lt in Hneg; lia|].
  destruct (decide (Z.of_nat (length l) <= start)) as [Hbig|Hsmall].
  - rewrite (Z.min_r start) by lia. rewrite Nat2Z.id.
    rewrite (drop_ge l (Z.to_nat start)) by lia.
    rewrite drop_all. by rewrite !take_nil.
  - rewrite (Z.min_l start) by lia.
    apply take_drop_clip. destruct (end_ <? 0); lia.
Qed.

Lemma StronglySorted_lookup (R : relation A) (l : list A) :
  StronglySorted R l ->
  forall i j a b, l !! i = Some a -> l !! j = Some b -> (i < j)%nat -> R a b.
Proof.
  induction 1 as [|x l Hsorted IH Hall]; intros i j a b Hi Hj Hlt.
  - by rewrite lookup_nil in Hi.
  - destruct j as [|j]; [lia|]. simpl in Hj. destruct i as [|i].
    + simpl in Hi. simplify_eq. rewrite Forall_forall in Hall.
      eapply Hall, list_elem_of_lookup_2, Hj.
    + simpl in Hi. eapply IH; eauto. lia.
Qed.

Lemma StronglySorted_weaken (R R' : relation A) (l : list A) :
  (forall a b, R a b -> R' a b) -> StronglySorted R l -> StronglySorted R' l.
Proof.
  intros HR. induction 1 as [|x l Hsorted IH Hall]; constructor; [done|].
  eapply Forall_impl; [exact Hall|]. apply HR.
Qed.

Lemma StronglySorted_imap (R : relation A) (f : nat -> A -> A) (l : list A) :
  (forall i j a b, R a b -> R (f i a) (f j b)) ->
  StronglySorted R l -> StronglySorted R (imap f l).
Proof.
  intros Hf Hsorted. revert f Hf.
  induction Hsorted as [|x l Hsorted IH Hall]; intros f Hf.
  - constructor.
  - rewrite imap_cons. constructor.
    + apply IH. intros i j a b. apply Hf.
    + rewrite Forall_forall. intros y Hy.
      apply elem_of_lookup_imap_1 in Hy as (i & z & -> & Hz).
      apply Hf. rewrite Forall_forall in Hall.
      eapply Hall, list_elem_of_lookup_2, Hz.
Qed.

(** A renumbering that neither [P] nor [g] can see. *)
Lemma fmap_filter_imap {B} (P : A -> Prop) `{!forall x, Decision (P x)}
    (g : A -> B) (l : list A) : forall (f : nat -> A -> A),
  (forall i x, P (f i x) <-> P x) ->
  (forall i x, g (f i x) = g x) ->
  g <$> filter P (imap f l) = g <$> filter P l.
Proof.
  induction l as [|x l IH]; intros f HP Hg; [done|].
  rewrite imap_cons, !filter_cons.
  destruct (decide (P (f 0%nat x))) as [Hy|Hn];
    destruct (decide (P x)) as [Hx|Hx].
  - rewrite !fmap_cons, Hg. f_equal. apply IH; intros; [apply HP|apply Hg].
  - by apply HP in Hy.
  - by apply (HP 0%nat) in Hx.
  - apply IH; intros; [apply HP|apply Hg].
Qed.

Lemma filter_insert_out (P : A -> Prop) `{!forall x, Decision (P x)}
    (l : list A) (i : nat) (x y : A) :
  l !! i = Some x -> ~ P x -> ~ P y -> filter P (<[i:=y]> l) = filter P l.
Proof.
  intros Hi Hx Hy.
  rewrite insert_take_drop by (by eapply lookup_lt_Some).
  rewrite <- (take_drop_middle l i x Hi) at 3.
  rewrite !filter_app, !filter_cons.
  by rewrite !decide_False.
Qed.
End ListFacts.

(** * Properties of the leaderboard engine *)

Section LeaderboardFacts.
Import LeaderboardManager.

Lemma compareEntries_key_ge a b : compareEntries a b <= 0 <-> key_ge a b.
Proof.
  unfold compareEntries, key_ge.
  destruct (Entry.totalPoints b =? Entry.totalPoints a) eqn:Hp;
    [apply Z.eqb_eq in Hp|apply Z.eqb_neq in Hp]; [|lia].
  destruct (Entry.longestStreak b =? Entry.longestStreak a) eqn:Hl;
    [apply Z.eqb_eq in Hl|apply Z.eqb_neq in Hl]; lia.
Qed.

Lemma compareEntries_flip a b :
  0 < compareEntries a b -> compareEntries b a <= 0.
Proof.
  unfold compareEntries.
  rewrite (Z.eqb_sym (Entry.totalPoints a)), (Z.eqb_sym (Entry.longestStreak a)).
  destruct (Entry.totalPoints b =? Entry.totalPoints a); [|lia].
  destruct (Entry.longestStreak b =? Entry.longestStreak a); lia.
Qed.

Lemma compareEntries_trans a b c :
  compareEntries a b <= 0 -> compareEntries b c <= 0 ->
  compareEntries a c <= 0.
Proof. rewrite !compareEntries_key_ge. unfold key_ge. lia. Qed.

Lemma compareEntries_tied k x y :
  sortKey x = k -> sortKey y = k -> compareEntries x y <= 0.
Proof.
  unfold sortKey, compareEntries. intros <- [= Hp Hl Hq].
  rewrite Hp, Hl, Hq, !Z.eqb_refl. lia.
Qed.

Lemma getLeaderboard_load st : getLeaderboard st = loadLeaderboard st.
Proof.
  unfold getLeaderboard. rewrite <- (list_fmap_id (loadLeaderboard st)) at 2.
  apply list_fmap_ext. by intros _ [] _.
Qed.

(** The roster that [updateLeaderboard] stores. *)
Lemma updateLeaderboard_roster clk sd st :
  loadLeaderboard (updateLeaderboard clk sd st)
  = take 100
      (imap setRank
         (array_sort compareEntries
            (upsertEntry clk (getPlayerName st) sd (loadLeaderboard st)))).
Proof.
  unfold updateLeaderboard, saveLeaderboard, loadLeaderboard; simpl.
  by rewrite array_slice_take.
Qed.

Lemma updateLeaderboard_slots clk sd st :
  streak_item (updateLeaderboard clk sd st) = streak_item st
  /\ player_name_item (updateLeaderboard clk sd st) = player_name_item st.
Proof. done. Qed.

Lemma sorted_roster_ordered l :
  StronglySorted key_ge (imap setRank (array_sort compareEntries l)).
Proof.
  apply StronglySorted_imap; [by intros i j [] []|].
  eapply StronglySorted_weaken;
    [|apply array_sort_sorted;
       [apply compareEntries_flip|apply compareEntries_trans]].
  intros a b. apply compareEntries_key_ge.
Qed.

Lemma upsertEntry_others clk p sd l :
  filter (λ e, Entry.playerName e ≠ p) (upsertEntry clk p sd l)
  = filter (λ e, Entry.playerName e ≠ p) l.
Proof.
  unfold upsertEntry.
  destruct (list_find _ l) as [[i e]|] eqn:Hfind.
  - apply list_find_Some in Hfind as (Hi & Hname & _).
    eapply filter_insert_out; [exact Hi| |]; simpl; intros H; by apply H.
  - rewrite filter_app, filter_cons, decide_False by (simpl; by intros H).
    by rewrite filter_nil, app_nil_r.
Qed.

Lemma upsertEntry_length_new clk p sd l :
  p ∉ Entry.playerName <$> l ->
  length (upsertEntry clk p sd l) = S (length l).
Proof.
  intros Hnew. unfold upsertEntry.
  destruct (list_find _ l) as [[i e]|] eqn:Hfind.
  - apply list_find_Some in Hfind as (Hi & Hname & _).
    exfalso. apply Hnew. rewrite <- Hname.
    apply list_elem_of_fmap_2. by eapply list_elem_of_lookup_2.
  - rewrite length_app. simpl. lia.
Qed.

Lemma upsertEntry_length_le clk p sd l :
  (length (upsertEntry clk p sd l) <= S (length l))%nat.
Proof.
  unfold upsertEntry. destruct (list_find _ l) as [[i e]|].
  - rewrite length_insert. lia.
  - rewrite length_app. simpl. lia.
Qed.
End LeaderboardFacts.

Section RankFacts.
Import LeaderboardManager.

Lemma ranked_lookup (l : list LeaderboardEntry) (n i : nat) e :
  take n (imap setRank l) !! i = Some e -> Entry.rank e = Z.of_nat i + 1.
Proof.
  rewrite lookup_take_Some, list_lookup_imap_Some.
  by intros [(y & _ & ->) _].
Qed.

Lemma ranks_seqZ (l : list LeaderboardEntry) :
  (forall i e, l !! i = Some e -> Entry.rank e = Z.of_nat i + 1) ->
  Entry.rank <$> l = seqZ 1 (Z.of_nat (length l)).
Proof.
  intros Hrank. apply list_eq. intros i. rewrite list_lookup_fmap.
  destruct (l !! i) as [e|] eqn:Hi; simpl.
  - rewrite lookup_seqZ_lt by (apply lookup_lt_Some in Hi; lia).
    rewrite (Hrank i e Hi). f_equal. lia.
  - rewrite lookup_seqZ_ge; [done|]. apply lookup_ge_None in Hi. lia.
Qed.
End RankFacts.

(** C4: after updateLeaderboard the stored roster is sorted, descending, by
    totalPoints, then longestStreak, then totalQuizzesPassed; the ranks are
    1..N in that order, each once, and a smaller rank goes with a sort key
    that is greater or equal; the roster is the first 100 entries of the
    whole sorted list, so it has at most 100 entries, and exactly 100 after
    a 101st distinct player was submitted. *)
Theorem C4_roster_sorted_ranked_capped (clk : Clock) (sd : StreakData)
    (st : Store) :
  let upserted :=
    LeaderboardManager.upsertEntry clk (LeaderboardManager.getPlayerName st)
      sd (LeaderboardManager.loadLeaderboard st) in
  let post :=
    LeaderboardManager.loadLeaderboard
      (LeaderboardManager.updateLeaderboard clk sd st) in
  StronglySorted key_ge post
  /\ (forall i e, post !! i = Some e -> Entry.rank e = Z.of_nat i + 1)
  /\ Entry.rank <$> post = seqZ 1 (Z.of_nat (length post))
  /\ NoDup (Entry.rank <$> post)
  /\ (forall a b, a ∈ post -> b ∈ post -> Entry.rank a < Entry.rank b ->
      key_ge a b)
  /\ (length post <= 100)%nat
  /\ (exists whole,
        StronglySorted key_ge whole
        /\ payload <$> whole ≡ₚ payload <$> upserted
        /\ post = take 100 whole)
  /\ (length (LeaderboardManager.loadLeaderboard st) = 100%nat ->
      LeaderboardManager.getPlayerName st
        ∉ Entry.playerName <$> LeaderboardManager.loadLeaderboard st ->
      length post = 100%nat).
Proof.
  intros upserted post.
  assert (post = take 100 (imap LeaderboardManager.setRank
                             (array_sort LeaderboardManager.compareEntries
                                upserted))) as Hpost
    by apply updateLeaderboard_roster.
  pose proof (sorted_roster_ordered upserted) as Hwhole.
  assert (StronglySorted key_ge post) as Hsorted.
  { rewrite Hpost. eapply StronglySorted_app_1_l.
    rewrite take_drop. exact Hwhole. }
  assert (forall i e, post !! i = Some e -> Entry.rank e = Z.of_nat i + 1) as Hrank.
  { intros i e. rewrite Hpost. apply ranked_lookup. }
  split; [done|]. split; [done|].
  split; [by apply ranks_seqZ|].
  split; [rewrite (ranks_seqZ post Hrank); apply NoDup_seqZ|].
  split.
  { intros a b Ha Hb Hlt.
    apply list_elem_of_lookup in Ha as [i Hi].
    apply list_elem_of_lookup in Hb as [j Hj].
    rewrite (Hrank i a Hi), (Hrank j b Hj) in Hlt.
    eapply (StronglySorted_lookup key_ge post Hsorted i j); eauto. lia. }
  split; [rewrite Hpost, length_take; lia|].
  split.
  { eexists. split; [exact Hwhole|]. split; [|exact Hpost].
    rewrite fmap_imap.
    rewrite (imap_ext _ (const payload)) by (by intros ? [] ?).
    rewrite imap_const. by rewrite array_sort_perm. }
  intros Hfull Hnew.
  rewrite Hpost, length_take, length_imap, array_sort_length.
  subst upserted. rewrite upsertEntry_length_new by done. lia.
Qed.

Lemma C4_roster_sorted_ranked_capped_witness :
  length (LeaderboardManager.loadLeaderboard
            (LeaderboardManager.updateLeaderboard tenDaysClock
               (statsOf 50 3 2) crowdedStore)) = 100%nat.
Proof.
  apply (C4_roster_sorted_ranked_capped tenDaysClock (statsOf 50 3 2)
           crowdedStore).
  - vm_compute. reflexivity.
  - apply (bool_decide_unpack _). vm_compute. exact I.
Defined.

(** C5: entries with the same (totalPoints, longestStreak,
    totalQuizzesPassed) are stored in the order they had before the sort
    (up to the cut at 100 entries); A(100,10,5), B(100,10,5), C(150,1,1)
    submitted in that order to an empty roster are stored as C, A, B with
    ranks 1, 2, 3. *)
Theorem C5_stable_ties (clk : Clock) (sd : StreakData) (st : Store)
    (k : Z * Z * Z) :
  let pre :=
    LeaderboardManager.upsertEntry clk (LeaderboardManager.getPlayerName st)
      sd (LeaderboardManager.loadLeaderboard st) in
  let post :=
    LeaderboardManager.loadLeaderboard
      (LeaderboardManager.updateLeaderboard clk sd st) in
  payload <$> filter (λ e, sortKey e = k) post
    `prefix_of` payload <$> filter (λ e, sortKey e = k) pre
  /\ ((length pre <= 100)%nat ->
      payload <$> filter (λ e, sortKey e = k) post
      = payload <$> filter (λ e, sortKey e = k) pre)
  /\ (forall c1 c2 c3 : Clock,
      LeaderboardManager.loadLeaderboard
        (submitAs c3 "C" (statsOf 150 1 1)
           (submitAs c2 "B" (statsOf 100 10 5)
              (submitAs c1 "A" (statsOf 100 10 5) emptyStore)))
      = [ Entry.mk "C" 150 1 1 (now_iso c3) 1;
          Entry.mk "A" 100 10 5 (now_iso c1) 2;
          Entry.mk "B" 100 10 5 (now_iso c2) 3 ]).
Proof.
  intros pre post.
  assert (post = take 100 (imap LeaderboardManager.setRank
                             (array_sort LeaderboardManager.compareEntries
                                pre))) as Hpost
    by apply updateLeaderboard_roster.
  assert (forall l : list LeaderboardEntry,
            payload <$> filter (λ e, sortKey e = k)
                          (imap LeaderboardManager.setRank
                             (array_sort LeaderboardManager.compareEntries l))
            = payload <$> filter (λ e, sortKey e = k) l) as Hstable.
  { intros l. rewrite fmap_filter_imap by (by intros ? []).
    rewrite array_sort_filter; [done|]. apply compareEntries_tied. }
  split; [|split].
  - rewrite <- (Hstable pre), Hpost.
    set (whole := imap _ _).
    rewrite <- (take_drop 100 whole) at 2.
    rewrite filter_app, fmap_app. by eexists.
  - intros Hroom. rewrite <- (Hstable pre), Hpost.
    rewrite take_ge; [done|].
    by rewrite length_imap, array_sort_length.
  - intros c1 c2 c3. vm_compute. reflexivity.
Qed.

Lemma C5_stable_ties_witness :
  payload <$> filter (λ e, sortKey e = (128, 18, 16))
                (LeaderboardManager.loadLeaderboard
                   (LeaderboardManager.updateLeaderboard tenDaysClock
                      (statsOf 128 18 16)
                      (LeaderboardManager.setPlayerName "Newcomer" fiveStore)))
  = [ ("Study Pro", 128, 18, 16, "1970-01-01T00:00:00.000Z");
      ("Newcomer", 128, 18, 16, "1970-01-11T00:00:00.000Z") ].
Proof.
  rewrite (proj1 (proj2 (C5_stable_ties tenDaysClock (statsOf 128 18 16)
                           (LeaderboardManager.setPlayerName "Newcomer"
                              fiveStore) (128, 18, 16))));
    [vm_compute; reflexivity | vm_compute; lia].
Defined.

(** C7, as the specification states it for all integers, fails: with
    targetRank = 0 and range = -1 the end index is -1, which [slice] counts
    from the end of the roster; on a roster of five the call returns the
    first four entries, and no index lies between 0 and -1. *)
Lemma C7_negative_end_counterexample :
  LeaderboardManager.getPlayersAroundRank 0 (-1) fiveStore
  = take 4 (LeaderboardManager.loadLeaderboard fiveStore)
  /\ window (LeaderboardManager.loadLeaderboard fiveStore)
       (Z.max 0 (0 - (-1) - 1)) (Z.min 5 (0 + (-1))) = []
  /\ LeaderboardManager.getPlayersAroundRank 0 (-1) fiveStore
     <> window (LeaderboardManager.loadLeaderboard fiveStore)
          (Z.max 0 (0 - (-1) - 1))
          (Z.min (Z.of_nat (length (LeaderboardManager.loadLeaderboard
                                      fiveStore))) (0 + (-1))).
Proof.
  split; [vm_compute; reflexivity|].
  split; [vm_compute; reflexivity|].
  vm_compute. discriminate.
Qed.

(** C7, amended: for all integers targetRank and range with
    targetRank + range >= 0, getPlayersAroundRank returns the entries of the
    roster at the indices from max(0, targetRank - range - 1) inclusive to
    min(size, targetRank + range) exclusive, in order; when
    targetRank + range < 0 the upper bound is size + targetRank + range
    instead. On a roster of five, targetRank = 1 and range = 2 give the
    entries at indices 0, 1, 2; targetRank = 0 with range >= 0 gives the
    first min(size, range) entries. *)
Theorem C7_rank_window (targetRank range : Z) (st : Store) :
  let roster := LeaderboardManager.loadLeaderboard st in
  let size := Z.of_nat (length roster) in
  (0 <= targetRank + range ->
     LeaderboardManager.getPlayersAroundRank targetRank range st
     = window roster (Z.max 0 (targetRank - range - 1))
         (Z.min size (targetRank + range)))
  /\ (targetRank + range < 0 ->
     LeaderboardManager.getPlayersAroundRank targetRank range st
     = window roster (Z.max 0 (targetRank - range - 1))
         (size + (targetRank + range)))
  /\ (length roster = 5%nat ->
     LeaderboardManager.getPlayersAroundRank 1 2 st = take 3 roster)
  /\ (0 <= range ->
     LeaderboardManager.getPlayersAroundRank 0 range st
     = take (Z.to_nat range) roster).
Proof.
  intros roster size.
  assert (forall t r,
    LeaderboardManager.getPlayersAroundRank t r st
    = window roster (Z.max 0 (t - r - 1))
        (if Z.min size (t + r) <? 0 then size + Z.min size (t + r)
         else Z.min (Z.min size (t + r)) size)) as Hslice.
  { intros t r. unfold LeaderboardManager.getPlayersAroundRank.
    rewrite getLeaderboard_load. cbv zeta.
    rewrite array_slice_window by lia. done. }
  assert (forall t r, 0 <= t + r ->
    LeaderboardManager.getPlayersAroundRank t r st
    = window roster (Z.max 0 (t - r - 1)) (Z.min size (t + r))) as Hpos.
  { intros t r Hge. rewrite Hslice.
    destruct (_ <? 0) eqn:Hneg; [apply Z.ltb_lt in Hneg; lia|].
    f_equal. lia. }
  split; [apply Hpos|]. split; [|split].
  - intros Hneg. rewrite Hslice.
    destruct (_ <? 0) eqn:Hlt; [f_equal; lia|].
    apply Z.ltb_ge in Hlt. lia.
  - intros Hfive. rewrite Hpos by lia. rewrite window_take_drop by lia.
    subst size. rewrite Hfive. done.
  - intros Hrange. rewrite Hpos by lia. rewrite window_take_drop by lia.
    rewrite Z.max_l by lia. change (Z.to_nat 0) with 0%nat.
    rewrite drop_0, Z.sub_0_r, Z.add_0_l.
    destruct (Z.min_spec size range) as [[? ->]|[? ->]]; [|done].
    subst size. rewrite Nat2Z.id, !take_ge; [done|lia|lia].
Qed.

Lemma C7_rank_window_witness :
  LeaderboardManager.getPlayersAroundRank 1 2 fiveStore
  = [ Entry.mk "Quiz Master" 150 25 20 "1970-01-01T00:00:00.000Z" 1;
      Entry.mk "Study Pro" 128 18 16 "1970-01-01T00:00:00.000Z" 2;
      Entry.mk "Brain Trainer" 95 15 12 "1970-01-01T00:00:00.000Z" 3 ].
Proof.
  rewrite (proj1 (proj2 (proj2 (C7_rank_window 1 2 fiveStore))) eq_refl).
  reflexivity.
Defined.

(** C10: updateLeaderboard for the player p changes no entry of another
    name: every stored entry whose playerName is not p has the playerName,
    totalPoints, longestStreak, totalQuizzesPassed and lastActive of an
    entry of the former roster, one for one; only its rank and its place
    may differ, and entries are lost only to the cut at 100. *)
Theorem C10_other_entries_kept (clk : Clock) (sd : StreakData) (st : Store) :
  let p := LeaderboardManager.getPlayerName st in
  let old := LeaderboardManager.loadLeaderboard st in
  let post :=
    LeaderboardManager.loadLeaderboard
      (LeaderboardManager.updateLeaderboard clk sd st) in
  payload <$> filter (λ e, Entry.playerName e ≠ p) post
    ⊆+ payload <$> filter (λ e, Entry.playerName e ≠ p) old
  /\ (forall e', e' ∈ post -> Entry.playerName e' ≠ p ->
        exists e, e ∈ old /\ payload e = payload e')
  /\ ((length old < 100)%nat ->
      payload <$> filter (λ e, Entry.playerName e ≠ p) post
        ≡ₚ payload <$> filter (λ e, Entry.playerName e ≠ p) old).
Proof.
  intros p old post.
  set (upserted := LeaderboardManager.upsertEntry clk p sd old).
  set (whole := imap LeaderboardManager.setRank
                  (array_sort LeaderboardManager.compareEntries upserted)).
  assert (post = take 100 whole) as Hpost by apply updateLeaderboard_roster.
  assert (payload <$> filter (λ e, Entry.playerName e ≠ p) whole
          ≡ₚ payload <$> filter (λ e, Entry.playerName e ≠ p) old) as Hwhole.
  { subst whole. rewrite fmap_filter_imap by (by intros ? []).
    rewrite array_sort_perm. subst upserted.
    by rewrite upsertEntry_others. }
  assert (payload <$> filter (λ e, Entry.playerName e ≠ p) post
          ⊆+ payload <$> filter (λ e, Entry.playerName e ≠ p) old) as Hsub.
  { rewrite <- Hwhole, Hpost.
    apply fmap_submseteq, sublist_submseteq.
    rewrite <- (take_drop 100 whole) at 2. rewrite filter_app.
    apply sublist_inserts_r. done. }
  split; [done|]. split.
  - intros e' Hin Hother.
    assert (payload e' ∈ payload <$> filter (λ e, Entry.playerName e ≠ p) old)
      as Hmem.
    { eapply elem_of_submseteq; [|exact Hsub].
      apply list_elem_of_fmap_2, list_elem_of_filter. done. }
    apply list_elem_of_fmap_1 in Hmem as (e & Heq & He).
    apply list_elem_of_filter in He as [_ He]. by exists e.
  - intros Hroom. rewrite <- Hwhole, Hpost. rewrite take_ge; [done|].
    subst whole. rewrite length_imap, array_sort_length.
    pose proof (upsertEntry_length_le clk p sd old). subst upserted. lia.
Qed.

Lemma C10_other_entries_kept_witness :
  exists e,
    e ∈ LeaderboardManager.loadLeaderboard fiveStore
    /\ payload e
       = payload (Entry.mk "Quiz Master" 150 25 20 "1970-01-01T00:00:00.000Z" 2).
Proof.
  apply (proj1 (proj2 (C10_other_entries_kept tenDaysClock (statsOf 500 30 40)
                         fiveStore))).
  - apply (list_elem_of_lookup_2 _ 1%nat). vm_compute. reflexivity.
  - simpl. discriminate.
Defined.

(** * Further properties of the streak engine *)

Section StreakExtras.
Import StreakManager.

Lemma saveStreakData_twice d1 d2 st :
  saveStreakData d2 (saveStreakData d1 st) = saveStreakData d2 st.
Proof. done. Qed.

Lemma or_number_none : or_number None = Some 0.
Proof. done. Qed.

Lemma readFields_missing parsed :
  Forall (λ key, prop parsed key = None) streakKeys ->
  readFields parsed = Some defaultData.
Proof.
  unfold streakKeys. rewrite !Forall_cons.
  intros (H1 & H2 & H3 & H4 & H5 & H6 & H7 & H8 & _).
  unfold readFields. by rewrite H1, H2, H3, H4, H5, H6, H7, H8.
Qed.

(** One answer, field by field. *)
Lemma answerUpdate_frame isCorrect s :
  totalQuizzesPassed (answerUpdate isCorrect s).1 = totalQuizzesPassed s
  /\ totalQuizzesTaken (answerUpdate isCorrect s).1 = totalQuizzesTaken s
  /\ lastQuizDate (answerUpdate isCorrect s).1 = lastQuizDate s
  /\ longestStreak s <= longestStreak (answerUpdate isCorrect s).1.
Proof.
  unfold answerUpdate.
  destruct isCorrect; simpl; [|repeat split; try done; lia].
  destruct (_ && _); simpl.
  - destruct (_ <? _) eqn:E; simpl; [apply Z.ltb_lt in E|];
      repeat split; try done; lia.
  - destruct (isInStreak s); simpl; [|repeat split; try done; lia].
    destruct (_ <? _) eqn:E; simpl; [apply Z.ltb_lt in E|];
      repeat split; try done; lia.
Qed.
End StreakExtras.

(** X1: a record that was saved is read back as it was, also where a field
    is 0, the empty string or false, which the defaults of the reader
    replace by themselves. *)
Theorem X1_save_read_round_trip (d : StreakData) (st : Store) :
  StreakManager.getStreakData (StreakManager.saveStreakData d st) = Some d
  /\ StreakManager.exportStreakData (StreakManager.saveStreakData d st)
     = Some (StreakManager.to_json d)
  /\ LeaderboardManager.loadLeaderboard (StreakManager.saveStreakData d st)
     = LeaderboardManager.loadLeaderboard st
  /\ LeaderboardManager.getPlayerName (StreakManager.saveStreakData d st)
     = LeaderboardManager.getPlayerName st.
Proof.
  split; [apply getStreakData_save|].
  split; [|done].
  unfold StreakManager.exportStreakData. by rewrite getStreakData_save.
Qed.

(** X2: getStreakData answers the all-zero default when nothing is stored,
    when the stored value is null, and when it is any value without the
    eight fields (a number, a string, an array, an object with other
    keys). *)
Theorem X2_read_defaults (st : Store) (parsed : json) :
  (streak_item st = None ->
   StreakManager.getStreakData st = Some StreakManager.defaultData)
  /\ (Forall (λ key, prop parsed key = None) streakKeys ->
      StreakManager.getStreakData (StreakManager.setItem parsed st)
      = Some StreakManager.defaultData).
Proof.
  split.
  - intros Hnone. unfold StreakManager.getStreakData. by rewrite Hnone.
  - intros Hmissing. unfold StreakManager.getStreakData; simpl.
    destruct parsed; try done; by apply readFields_missing.
Qed.

Lemma X2_read_defaults_witness :
  StreakManager.getStreakData
    (StreakManager.setItem (JObj [("theme", JStr "dark")]) activeStore)
  = Some StreakManager.defaultData.
Proof.
  apply (proj2 (X2_read_defaults activeStore (JObj [("theme", JStr "dark")]))).
  unfold streakKeys. repeat constructor.
Defined.

(** X3: what exportStreakData writes, importStreakData accepts, into any
    store, and the state read afterwards is the state exported. *)
Theorem X3_export_import_round_trip (st target : Store) (s : StreakData) :
  StreakManager.getStreakData st = Some s ->
  exists data target',
    StreakManager.exportStreakData st = Some data
    /\ StreakManager.importStreakData (Some data) target = (target', true)
    /\ StreakManager.getStreakData target' = Some s
    /\ LeaderboardManager.loadLeaderboard target'
       = LeaderboardManager.loadLeaderboard target.
Proof.
  intros Hs.
  exists (StreakManager.to_json s), (StreakManager.saveStreakData s target).
  unfold StreakManager.exportStreakData. rewrite Hs.
  split; [done|]. split; [by destruct s|].
  split; [apply getStreakData_save|done].
Qed.

Lemma X3_export_import_round_trip_witness :
  exists data target',
    StreakManager.exportStreakData activeStore = Some data
    /\ StreakManager.importStreakData (Some data) emptyStore = (target', true)
    /\ StreakManager.getStreakData target'
       = Some (mkStreakData 4 4 "Thu Jan 01 1970" 1 1 2 4 true)
    /\ LeaderboardManager.loadLeaderboard target'
       = LeaderboardManager.loadLeaderboard emptyStore.
Proof.
  apply (X3_export_import_round_trip activeStore emptyStore
           (mkStreakData 4 4 "Thu Jan 01 1970" 1 1 2 4 true)).
  reflexivity.
Defined.

(** X4: a backup that has the five required fields and none of totalPoints,
    consecutiveCorrectAnswers and isInStreak is accepted and read as a
    state with those five values, no points, no consecutive correct answers
    and no active streak, whatever currentStreak it states. *)
Theorem X4_import_five_fields (data : json) (st : Store)
    (cs ls qp qt : Z) (lq : string) :
  prop data "currentStreak" = Some (JNum cs) ->
  prop data "longestStreak" = Some (JNum ls) ->
  prop data "lastQuizDate" = Some (JStr lq) ->
  prop data "totalQuizzesPassed" = Some (JNum qp) ->
  prop data "totalQuizzesTaken" = Some (JNum qt) ->
  prop data "totalPoints" = None ->
  prop data "consecutiveCorrectAnswers" = None ->
  prop data "isInStreak" = None ->
  exists st',
    StreakManager.importStreakData (Some data) st = (st', true)
    /\ StreakManager.getStreakData st'
       = Some (mkStreakData cs ls lq qp qt 0 0 false).
Proof.
  intros H1 H2 H3 H4 H5 H6 H7 H8.
  destruct (importStreakData_cases (Some data) st)
    as [(data' & [= <-] & _ & Hnull & Hrun)|[Hno _]].
  - exists (StreakManager.setItem data st). split; [done|].
    unfold StreakManager.getStreakData; simpl.
    assert (StreakManager.readFields data
            = Some (mkStreakData cs ls lq qp qt 0 0 false)) as Hread.
    { unfold StreakManager.readFields.
      rewrite H1, H2, H3, H4, H5, H6, H7, H8.
      by rewrite !or_number_num, or_string_str. }
    by destruct data.
  - exfalso. apply Hno. exists data. split; [done|].
    unfold required_kinds, is_number, is_string.
    rewrite H1, H2, H3, H4, H5. eauto 10.
Qed.

Lemma X4_import_five_fields_witness :
  exists st',
    StreakManager.importStreakData (Some lopsidedBackup) activeStore
    = (st', true)
    /\ StreakManager.getStreakData st'
       = Some (mkStreakData 5 5 "" 0 0 0 0 false).
Proof.
  apply (X4_import_five_fields lopsidedBackup activeStore 5 5 0 0 "");
    reflexivity.
Defined.

(** X5: a wrong answer sets consecutiveCorrectAnswers and currentStreak to
    0 and isInStreak to false, earns nothing and keeps the five other
    fields; no answer, right or wrong, changes the quiz counters or
    lastQuizDate or lowers longestStreak. *)
Theorem X5_wrong_answer_reset (st : Store) (s : StreakData) :
  StreakManager.getStreakData st = Some s ->
  (exists st',
      StreakManager.updateStreakForAnswer false st
      = Some (st', (mkStreakData 0 (longestStreak s) (lastQuizDate s)
                      (totalQuizzesPassed s) (totalQuizzesTaken s)
                      (totalPoints s) 0 false, 0))
      /\ StreakManager.getStreakData st'
         = Some (mkStreakData 0 (longestStreak s) (lastQuizDate s)
                   (totalQuizzesPassed s) (totalQuizzesTaken s)
                   (totalPoints s) 0 false))
  /\ (forall isCorrect, exists st' d p,
      StreakManager.updateStreakForAnswer isCorrect st = Some (st', (d, p))
      /\ totalQuizzesPassed d = totalQuizzesPassed s
      /\ totalQuizzesTaken d = totalQuizzesTaken s
      /\ lastQuizDate d = lastQuizDate s
      /\ longestStreak s <= longestStreak d).
Proof.
  intros Hs. split.
  - rewrite (updateStreakForAnswer_read false st s Hs). simpl.
    eexists. split; [reflexivity|]. apply getStreakData_save.
  - intros isCorrect.
    rewrite (updateStreakForAnswer_read isCorrect st s Hs).
    pose proof (answerUpdate_frame isCorrect s) as Hframe.
    destruct (StreakManager.answerUpdate isCorrect s) as [d p]; simpl in *.
    by eexists _, d, p.
Qed.

Lemma X5_wrong_answer_reset_witness :
  exists st',
    StreakManager.updateStreakForAnswer false activeStore
    = Some (st', (mkStreakData 0 4 "Thu Jan 01 1970" 1 1 2 0 false, 0))
    /\ StreakManager.getStreakData st'
       = Some (mkStreakData 0 4 "Thu Jan 01 1970" 1 1 2 0 false).
Proof.
  apply (proj1 (X5_wrong_answer_reset activeStore
                  (mkStreakData 4 4 "Thu Jan 01 1970" 1 1 2 4 true) eq_refl)).
Defined.

Section RunFacts.
Import StreakManager.

Lemma stateAfter_app answers1 answers2 st st1 points1 :
  recordAnswers answers1 st = Some (st1, points1) ->
  stateAfter (answers1 ++ answers2) st = stateAfter answers2 st1.
Proof.
  intros Hrun. unfold stateAfter.
  rewrite (recordAnswers_app answers1 answers2 st st1 points1 Hrun).
  by destruct (recordAnswers answers2 st1) as [[??]|].
Qed.

Lemma stateAfter_snoc answers isCorrect st s :
  stateAfter answers st = Some s ->
  stateAfter (answers ++ [isCorrect]) st = Some (answerUpdate isCorrect s).1.
Proof.
  unfold stateAfter at 1.
  destruct (recordAnswers answers st) as [[st1 points1]|] eqn:Hrun; [|done].
  intros Hs. rewrite (stateAfter_app _ _ _ _ _ Hrun).
  unfold stateAfter; simpl.
  rewrite (updateStreakForAnswer_read isCorrect st1 s Hs).
  destruct (answerUpdate isCorrect s) as [d p]; simpl.
  apply getStreakData_save.
Qed.

Lemma stateAfter_total answers st s :
  getStreakData st = Some s -> exists s', stateAfter answers st = Some s'.
Proof.
  intros Hs.
  destruct (recordAnswers_total answers st s Hs)
    as (st' & points & s' & Hrun & Hread & _).
  exists s'. unfold stateAfter. by rewrite Hrun.
Qed.

(** [n] correct answers in a row, from a state without consecutive correct
    answers and without a streak. *)
Lemma corrects_from_idle (n : nat) st s :
  stateAfter [] st = Some s ->
  isInStreak s = false -> consecutiveCorrectAnswers s = 0 ->
  exists s',
    stateAfter (replicate n true) st = Some s'
    /\ consecutiveCorrectAnswers s' = Z.of_nat n
    /\ isInStreak s' = (3 <=? Z.of_nat n)
    /\ currentStreak s'
       = (if 3 <=? Z.of_nat n then Z.of_nat n else currentStreak s)
    /\ totalPoints s' = totalPoints s + Z.max 0 (Z.of_nat n - 2)
    /\ longestStreak s'
       = (if 3 <=? Z.of_nat n then Z.max (longestStreak s) (Z.of_nat n)
          else longestStreak s)
    /\ totalQuizzesPassed s' = totalQuizzesPassed s
    /\ totalQuizzesTaken s' = totalQuizzesTaken s
    /\ lastQuizDate s' = lastQuizDate s.
Proof.
  intros Hs Hin Hcc. induction n as [|n IH].
  - exists s. simpl replicate. rewrite Hs, Hin, Hcc. simpl.
    repeat split; lia.
  - destruct IH as (s1 & Hrun & Hc & Hi & Hcs & Htp & Hls & Hqp & Hqt & Hlq).
    replace (replicate (S n) true) with (replicate n true ++ [true])
      by (by rewrite <- replicate_S_end).
    rewrite (stateAfter_snoc _ true _ _ Hrun).
    eexists. split; [reflexivity|].
    replace (Z.of_nat (S n)) with (Z.of_nat n + 1) by lia.
    destruct s1 as [cs1 ls1 lq1 qp1 qt1 tp1 cc1 in1]; simpl in *.
    subst cc1 in1 cs1 tp1 ls1 qp1 qt1 lq1.
    unfold answerUpdate; simpl.
    repeat match goal with
           | |- context [?a <=? ?b] => destruct (Z.leb_spec a b)
           | |- context [?a <? ?b] => destruct (Z.ltb_spec a b)
           end; simpl in *; repeat split; try done; try lia.
Qed.

Lemma last_cons_default {A} (l : list A) : forall d s : A,
  List.last (d :: l) s = List.last l d.
Proof.
  induction l as [|x l IH]; intros d s; [done|].
  change (List.last (d :: x :: l) s) with (List.last (x :: l) s).
  by rewrite (IH x s), (IH x d).
Qed.

Lemma foldr_max_init a b l :
  foldr Z.max (Z.max a b) l = Z.max b (foldr Z.max a l).
Proof. induction l as [|x l IH]; simpl; lia. Qed.

(** The step of the high-water mark. *)
Lemma answerUpdate_high_water isCorrect s :
  currentStreak s <= longestStreak s -> 0 <= longestStreak s ->
  longestStreak (answerUpdate isCorrect s).1
  = Z.max (longestStreak s) (currentStreak (answerUpdate isCorrect s).1).
Proof.
  intros Hle Hpos. unfold answerUpdate.
  destruct isCorrect; simpl; [|lia].
  destruct (_ && _); simpl.
  - destruct (_ <? _) eqn:E;
      [apply Z.ltb_lt in E|apply Z.ltb_ge in E]; simpl; lia.
  - destruct (isInStreak s); simpl; [|lia].
    destruct (_ <? _) eqn:E;
      [apply Z.ltb_lt in E|apply Z.ltb_ge in E]; simpl; lia.
Qed.

End RunFacts.

(** X6: after any answers, a wrong answer and then n correct ones,
    consecutiveCorrectAnswers is n, the streak is active exactly when
    n >= 3 and then has length n, and the n answers have earned
    max(0, n - 2) points; this holds from every stored state. *)
Theorem X6_streak_closed_form (before : list bool) (n : nat) (st : Store)
    (s : StreakData) :
  StreakManager.getStreakData st = Some s ->
  exists s1 s2,
    stateAfter (before ++ [false]) st = Some s1
    /\ stateAfter (before ++ false :: replicate n true) st = Some s2
    /\ consecutiveCorrectAnswers s2 = Z.of_nat n
    /\ isInStreak s2 = (3 <=? Z.of_nat n)
    /\ currentStreak s2 = (if 3 <=? Z.of_nat n then Z.of_nat n else 0)
    /\ totalPoints s2 = totalPoints s1 + Z.max 0 (Z.of_nat n - 2)
    /\ longestStreak s2
       = (if 3 <=? Z.of_nat n then Z.max (longestStreak s1) (Z.of_nat n)
          else longestStreak s1).
Proof.
  intros Hs.
  destruct (recordAnswers_total (before ++ [false]) st s Hs)
    as (st1 & points1 & s1 & Hrun1 & Hread1 & _).
  destruct (stateAfter_total before st s Hs) as [s0 Hs0].
  pose proof (stateAfter_snoc before false st s0 Hs0) as Hs1.
  assert (stateAfter (before ++ [false]) st = Some s1) as Hs1'.
  { unfold stateAfter. by rewrite Hrun1. }
  rewrite Hs1' in Hs1. injection Hs1 as Hs1.
  destruct (corrects_from_idle n st1 s1)
    as (s2 & Hrun2 & Hc & Hi & Hcs & Htp & Hls & _);
    [done|by rewrite Hs1|by rewrite Hs1|].
  exists s1, s2. split; [done|].
  replace (before ++ false :: replicate n true)
    with ((before ++ [false]) ++ replicate n true)
    by (by rewrite <- app_assoc).
  rewrite (stateAfter_app _ _ _ _ _ Hrun1).
  split; [done|]. split; [done|]. split; [done|].
  split; [|done].
  rewrite Hcs. destruct (3 <=? Z.of_nat n); [done|]. by rewrite Hs1.
Qed.

Lemma X6_streak_closed_form_witness :
  exists s1 s2,
    stateAfter ([true; true; true] ++ [false]) activeStore = Some s1
    /\ stateAfter ([true; true; true] ++ false :: replicate 5 true) activeStore
       = Some s2
    /\ consecutiveCorrectAnswers s2 = Z.of_nat 5
    /\ isInStreak s2 = (3 <=? Z.of_nat 5)
    /\ currentStreak s2 = (if 3 <=? Z.of_nat 5 then Z.of_nat 5 else 0)
    /\ totalPoints s2 = totalPoints s1 + Z.max 0 (Z.of_nat 5 - 2)
    /\ longestStreak s2
       = (if 3 <=? Z.of_nat 5 then Z.max (longestStreak s1) (Z.of_nat 5)
          else longestStreak s1).
Proof.
  apply (X6_streak_closed_form [true; true; true] 5 activeStore
           (mkStreakData 4 4 "Thu Jan 01 1970" 1 1 2 4 true)).
  reflexivity.
Defined.

(** X7: over any run of answers that starts with
    currentStreak <= longestStreak and longestStreak >= 0, longestStreak
    never decreases from one call to the next and ends as the maximum of
    its first value and of every currentStreak that a call returned. *)
Theorem X7_longest_streak_high_water (answers : list bool) (st : Store)
    (s : StreakData) :
  StreakManager.getStreakData st = Some s ->
  currentStreak s <= longestStreak s ->
  0 <= longestStreak s ->
  exists trace,
    answerTrace answers st = Some trace
    /\ length trace = length answers
    /\ stateAfter answers st = Some (List.last trace s)
    /\ longestStreak (List.last trace s)
       = foldr Z.max (longestStreak s) (currentStreak <$> trace)
    /\ StronglySorted Z.le (longestStreak s :: (longestStreak <$> trace)).
Proof.
  revert st s.
  induction answers as [|a answers IH]; intros st s Hs Hle Hpos.
  - exists []. unfold stateAfter; simpl. repeat split; try done.
    repeat constructor.
  - simpl answerTrace. rewrite (updateStreakForAnswer_read a st s Hs).
    pose proof (answerUpdate_high_water a s Hle Hpos) as Hstep.
    destruct (StreakManager.answerUpdate a s) as [d p] eqn:Hd; simpl in Hstep.
    destruct (IH (StreakManager.saveStreakData d st) d
                (getStreakData_save d st))
      as (trace & Htrace & Hlen & Hlast & Hmax & Hsorted); [lia|lia|].
    simpl. rewrite Htrace. exists (d :: trace).
    split; [done|]. split; [simpl; lia|].
    rewrite last_cons_default.
    split.
    { unfold stateAfter in *. simpl.
      rewrite (updateStreakForAnswer_read a st s Hs), Hd. simpl.
      by destruct (recordAnswers answers (StreakManager.saveStreakData d st))
        as [[??]|]. }
    split.
    { by rewrite Hmax, Hstep, foldr_max_init. }
    constructor; [done|]. constructor; [lia|].
    apply StronglySorted_inv in Hsorted as [_ Hall].
    eapply Forall_impl; [exact Hall|]. simpl. lia.
Qed.

Lemma X7_longest_streak_high_water_witness :
  exists trace,
    answerTrace [true; false; true; true; true] activeStore = Some trace
    /\ length trace = 5%nat
    /\ stateAfter [true; false; true; true; true] activeStore
       = Some (List.last trace
                 (mkStreakData 4 4 "Thu Jan 01 1970" 1 1 2 4 true))
    /\ longestStreak
         (List.last trace (mkStreakData 4 4 "Thu Jan 01 1970" 1 1 2 4 true))
       = foldr Z.max 4 (currentStreak <$> trace)
    /\ StronglySorted Z.le (4 :: (longestStreak <$> trace)).
Proof.
  apply (X7_longest_streak_high_water [true; false; true; true; true]
           activeStore (mkStreakData 4 4 "Thu Jan 01 1970" 1 1 2 4 true));
    [reflexivity | simpl; lia | simpl; lia].
Defined.

Section InvariantFacts.
Import StreakManager.

Lemma answerUpdate_engine_invariant isCorrect s :
  engine_invariant s -> engine_invariant (answerUpdate isCorrect s).1.
Proof.
  unfold engine_invariant.
  destruct s as [cs ls lq qp qt tp cc ins]; simpl.
  intros (Hcc & Hin & Hcs & Hle & Htp & Hq). subst ins cs.
  unfold answerUpdate; simpl.
  destruct (Z.leb_spec 3 cc); destruct isCorrect; simpl;
    repeat match goal with
           | |- context [?a <=? ?b] => destruct (Z.leb_spec a b)
           | |- context [?a <? ?b] => destruct (Z.ltb_spec a b)
           end; simpl in *; repeat split; try done; try lia.
Qed.

Lemma quizStats_read clk passed st s :
  getStreakData st = Some s ->
  updateQuizStats clk passed st
  = Some (saveStreakData
            (mkStreakData (currentStreak s) (longestStreak s)
               (today_string clk)
               (totalQuizzesPassed s + (if passed then 1 else 0))
               (totalQuizzesTaken s + 1) (totalPoints s)
               (consecutiveCorrectAnswers s) (isInStreak s)) st,
          mkStreakData (currentStreak s) (longestStreak s)
            (today_string clk)
            (totalQuizzesPassed s + (if passed then 1 else 0))
            (totalQuizzesTaken s + 1) (totalPoints s)
            (consecutiveCorrectAnswers s) (isInStreak s)).
Proof.
  intros Hs. unfold updateQuizStats. rewrite Hs; simpl.
  destruct passed; simpl; by rewrite ?Z.add_0_r.
Qed.

Lemma doCall_engine_invariant c st s :
  getStreakData st = Some s -> engine_invariant s ->
  exists st' s',
    doCall c st = Some st' /\ getStreakData st' = Some s'
    /\ engine_invariant s'.
Proof.
  intros Hs Hinv. destruct c as [isCorrect|clk passed|]; simpl.
  - rewrite (updateStreakForAnswer_read isCorrect st s Hs); simpl.
    eexists _, _. split; [reflexivity|].
    split; [apply getStreakData_save|].
    by apply answerUpdate_engine_invariant.
  - rewrite (quizStats_read clk passed st s Hs); simpl.
    eexists _, _. split; [reflexivity|].
    split; [apply getStreakData_save|].
    unfold engine_invariant in *; simpl.
    destruct Hinv as (? & ? & ? & ? & ? & ?).
    destruct passed; repeat split; try done; lia.
  - eexists _, _. split; [reflexivity|].
    split; [apply getStreakData_save|].
    unfold engine_invariant; simpl. repeat split; try done; lia.
Qed.

(** An answer does not look at the quiz counters or at the date. *)
Lemma answerUpdate_quiz_fields isCorrect s lq qp qt :
  answerUpdate isCorrect
    (mkStreakData (currentStreak s) (longestStreak s) lq qp qt
       (totalPoints s) (consecutiveCorrectAnswers s) (isInStreak s))
  = (mkStreakData (currentStreak (answerUpdate isCorrect s).1)
       (longestStreak (answerUpdate isCorrect s).1) lq qp qt
       (totalPoints (answerUpdate isCorrect s).1)
       (consecutiveCorrectAnswers (answerUpdate isCorrect s).1)
       (isInStreak (answerUpdate isCorrect s).1),
     (answerUpdate isCorrect s).2).
Proof.
  destruct s as [cs ls lq0 qp0 qt0 tp cc ins].
  unfold answerUpdate. destruct isCorrect; simpl; [|reflexivity].
  destruct (3 <=? cc + 1), ins; simpl; try reflexivity;
    destruct (_ <? _); reflexivity.
Qed.

Lemma message_tier_not_fallback (n : Z) (head tail : string) :
  head ≠ "" -> String.get 0 head ≠ Some "B"%char ->
  head +:+ pretty n +:+ tail ≠ "Blijf doorgaan!".
Proof.
  destruct head as [|c head]; [done|]. simpl.
  intros _ Hc [= -> _]. by apply Hc.
Qed.
End InvariantFacts.

(** X8: every run of answers, quiz outcomes and resets from a state with
    the engine invariant (the all-zero default has it) ends in a state with
    it: consecutiveCorrectAnswers >= 0, isInStreak exactly when it is at
    least 3, currentStreak equal to it in a streak and 0 otherwise,
    currentStreak <= longestStreak, totalPoints >= 0 and
    0 <= totalQuizzesPassed <= totalQuizzesTaken. *)
Theorem X8_engine_invariant (calls : list StreakCall) (st : Store)
    (s : StreakData) :
  StreakManager.getStreakData st = Some s ->
  engine_invariant s ->
  engine_invariant StreakManager.defaultData
  /\ exists st' s',
       runCalls calls st = Some st'
       /\ StreakManager.getStreakData st' = Some s'
       /\ engine_invariant s'
       /\ streak_invariant s'.
Proof.
  intros Hs Hinv. split.
  { unfold engine_invariant; simpl. repeat split; try done; lia. }
  revert st s Hs Hinv.
  induction calls as [|c calls IH]; intros st s Hs Hinv; simpl.
  - exists st, s. split; [done|]. split; [done|]. split; [done|].
    destruct Hinv as (Hcc & Hin & Hcs & _). unfold streak_invariant.
    rewrite Hcs. destruct (isInStreak s); split; try done; lia.
  - destruct (doCall_engine_invariant c st s Hs Hinv)
      as (st1 & s1 & Hcall & Hs1 & Hinv1).
    rewrite Hcall. by apply (IH st1 s1).
Qed.

Lemma X8_engine_invariant_witness :
  exists st' s',
    runCalls [CallAnswer true; CallAnswer true; CallAnswer true;
              CallQuizStats tenDaysClock true; CallAnswer false; CallReset;
              CallAnswer true] emptyStore = Some st'
    /\ StreakManager.getStreakData st' = Some s'
    /\ engine_invariant s'
    /\ streak_invariant s'.
Proof.
  apply (X8_engine_invariant _ emptyStore StreakManager.defaultData);
    [reflexivity|].
  unfold engine_invariant; simpl. repeat split; try done; lia.
Defined.

(** X9: getStreakMessage falls through to its last line, the message
    without a count, exactly for a record that is in no streak and has a
    consecutiveCorrectAnswers other than 0, 1 and 2; no state with the
    engine invariant gets that message. *)
Theorem X9_message_fallback (s : StreakData) :
  (StreakManager.getStreakMessage s = "Blijf doorgaan!"
   <-> isInStreak s = false
       /\ consecutiveCorrectAnswers s ≠ 0
       /\ consecutiveCorrectAnswers s ≠ 1
       /\ consecutiveCorrectAnswers s ≠ 2)
  /\ (engine_invariant s ->
      StreakManager.getStreakMessage s ≠ "Blijf doorgaan!").
Proof.
  assert (StreakManager.getStreakMessage s = "Blijf doorgaan!"
          <-> isInStreak s = false
              /\ consecutiveCorrectAnswers s ≠ 0
              /\ consecutiveCorrectAnswers s ≠ 1
              /\ consecutiveCorrectAnswers s ≠ 2) as Hiff.
  { unfold StreakManager.getStreakMessage.
    destruct (isInStreak s); simpl.
    - split; [|by intros [? _]]. intros Hmsg. exfalso.
      repeat (destruct (_ <? _) in Hmsg);
        revert Hmsg; by apply message_tier_not_fallback.
    - destruct (Z.eqb_spec (consecutiveCorrectAnswers s) 0);
        [split; [done|intros (_ & ? & _); done]|].
      destruct (Z.eqb_spec (consecutiveCorrectAnswers s) 1);
        [split; [done|intros (_ & _ & ? & _); done]|].
      destruct (Z.eqb_spec (consecutiveCorrectAnswers s) 2);
        [split; [done|intros (_ & _ & _ & ?); done]|].
      done. }
  split; [done|].
  intros (Hcc & Hin & _) Hmsg. apply Hiff in Hmsg as (Hout & H0 & H1 & H2).
  rewrite Hout in Hin. symmetry in Hin. apply Z.leb_gt in Hin. lia.
Qed.

Lemma X9_message_fallback_witness :
  StreakManager.getStreakMessage (mkStreakData 4 4 "" 1 1 2 4 true)
  ≠ "Blijf doorgaan!".
Proof.
  apply (proj2 (X9_message_fallback (mkStreakData 4 4 "" 1 1 2 4 true))).
  unfold engine_invariant; simpl. repeat split; try done; lia.
Defined.

(** X10: updateQuizStats adds one quiz taken, one quiz passed when passed,
    sets lastQuizDate and leaves the five streak fields; it commutes with
    updateStreakForAnswer: either order of the two calls leaves the same
    store and earns the same points. *)
Theorem X10_quiz_stats_commute (clk : Clock) (passed isCorrect : bool)
    (st : Store) (s : StreakData) :
  StreakManager.getStreakData st = Some s ->
  exists stq dq sta da p stqa daq pq staq dqa,
    StreakManager.updateQuizStats clk passed st = Some (stq, dq)
    /\ dq = mkStreakData (currentStreak s) (longestStreak s)
              (today_string clk)
              (totalQuizzesPassed s + (if passed then 1 else 0))
              (totalQuizzesTaken s + 1) (totalPoints s)
              (consecutiveCorrectAnswers s) (isInStreak s)
    /\ StreakManager.updateStreakForAnswer isCorrect st = Some (sta, (da, p))
    /\ StreakManager.updateStreakForAnswer isCorrect stq
       = Some (stqa, (daq, pq))
    /\ StreakManager.updateQuizStats clk passed sta = Some (staq, dqa)
    /\ stqa = staq /\ daq = dqa /\ pq = p.
Proof.
  intros Hs.
  set (dq := mkStreakData (currentStreak s) (longestStreak s)
               (today_string clk)
               (totalQuizzesPassed s + (if passed then 1 else 0))
               (totalQuizzesTaken s + 1) (totalPoints s)
               (consecutiveCorrectAnswers s) (isInStreak s)).
  set (ra := StreakManager.answerUpdate isCorrect s).
  set (rq := StreakManager.answerUpdate isCorrect dq).
  pose proof (quizStats_read clk passed st s Hs) as Hq1.
  pose proof (updateStreakForAnswer_read isCorrect st s Hs) as Ha1.
  pose proof (updateStreakForAnswer_read isCorrect _ dq
                (getStreakData_save dq st)) as Ha2.
  pose proof (quizStats_read clk passed _ _
                (getStreakData_save ra.1 st)) as Hq2.
  fold dq in Hq1. fold ra in Ha1. fold rq in Ha2.
  assert (rq
          = (mkStreakData (currentStreak ra.1) (longestStreak ra.1)
               (today_string clk)
               (totalQuizzesPassed s + (if passed then 1 else 0))
               (totalQuizzesTaken s + 1) (totalPoints ra.1)
               (consecutiveCorrectAnswers ra.1) (isInStreak ra.1),
             ra.2)) as Heq.
  { subst rq ra dq. apply answerUpdate_quiz_fields. }
  pose proof (answerUpdate_frame isCorrect s) as (Hqp & Hqt & _).
  fold ra in Hqp, Hqt.
  eexists _, dq, _, ra.1, ra.2, _, rq.1, rq.2, _, _.
  split; [exact Hq1|]. split; [done|].
  split; [rewrite Ha1; do 2 f_equal; apply surjective_pairing|].
  split; [rewrite Ha2; do 2 f_equal; apply surjective_pairing|].
  split; [exact Hq2|].
  rewrite Heq; simpl. rewrite Hqp, Hqt. done.
Qed.

Lemma X10_quiz_stats_commute_witness :
  exists stq dq sta da p stqa daq pq staq dqa,
    StreakManager.updateQuizStats tenDaysClock true activeStore
    = Some (stq, dq)
    /\ dq = mkStreakData 4 4 "Sun Jan 11 1970" (1 + 1) (1 + 1) 2 4 true
    /\ StreakManager.updateStreakForAnswer true activeStore
       = Some (sta, (da, p))
    /\ StreakManager.updateStreakForAnswer true stq = Some (stqa, (daq, pq))
    /\ StreakManager.updateQuizStats tenDaysClock true sta = Some (staq, dqa)
    /\ stqa = staq /\ daq = dqa /\ pq = p.
Proof.
  apply (X10_quiz_stats_commute tenDaysClock true true activeStore
           (mkStreakData 4 4 "Thu Jan 01 1970" 1 1 2 4 true)).
  reflexivity.
Defined.

(** X12: an expiry is undone by the next answer. When checkStreakExpiry
    fires on a state with the streak invariant and currentStreak >= 0, the
    next updateStreakForAnswer returns the record and the points, and
    leaves the store, that it would have without the expiry. *)
Theorem X12_expiry_undone_by_answer (clk : Clock) (maxDaysInactive : Z)
    (isCorrect : bool) (st st1 : Store) (s : StreakData) :
  StreakManager.getStreakData st = Some s ->
  streak_invariant s ->
  0 <= currentStreak s ->
  StreakManager.checkStreakExpiry clk maxDaysInactive st = Some (st1, true) ->
  StreakManager.updateStreakForAnswer isCorrect st1
  = StreakManager.updateStreakForAnswer isCorrect st.
Proof.
  intros Hs [Hinv1 Hinv2] Hnonneg Hfire.
  unfold StreakManager.checkStreakExpiry in Hfire. rewrite Hs in Hfire.
  simpl in Hfire.
  destruct (String.eqb (lastQuizDate s) "" || (currentStreak s =? 0))
    eqn:Hskip; [by simplify_eq|].
  apply orb_false_iff in Hskip as [_ Hzero]. apply Z.eqb_neq in Hzero.
  destruct (date_ms clk (lastQuizDate s)) as [t|]; [|by simplify_eq].
  destruct (_ <? _); [|by simplify_eq].
  simplify_eq.
  assert (isInStreak s = true) as Hin by (apply Hinv1; lia).
  rewrite (updateStreakForAnswer_read isCorrect _ _
             (getStreakData_save (set_currentStreak 0 s) st)).
  rewrite (updateStreakForAnswer_read isCorrect st s Hs).
  assert (StreakManager.answerUpdate isCorrect (set_currentStreak 0 s)
          = StreakManager.answerUpdate isCorrect s) as ->; [|done].
  unfold StreakManager.answerUpdate.
  destruct s as [cs ls lq qp qt tp cc ins]; simpl in *. subst ins.
  destruct isCorrect; simpl; [|done].
  by rewrite andb_false_r.
Qed.

Lemma X12_expiry_undone_by_answer_witness :
  StreakManager.updateStreakForAnswer true
    (StreakManager.saveStreakData
       (mkStreakData 0 4 "Thu Jan 01 1970" 1 1 2 4 true) activeStore)
  = StreakManager.updateStreakForAnswer true activeStore.
Proof.
  apply (X12_expiry_undone_by_answer tenDaysClock 7 true activeStore _
           (mkStreakData 4 4 "Thu Jan 01 1970" 1 1 2 4 true));
    [reflexivity | by split | simpl; lia | vm_compute; reflexivity].
Defined.

(** X13: after checkStreakExpiry has fired, a second call, at any time and
    with any limit, returns false and changes nothing; the record keeps
    isInStreak and consecutiveCorrectAnswers, so for a record that was in a
    streak getStreakMessage announces an active streak of 0 answers. *)
Theorem X13_expiry_once (clk clk' : Clock) (maxDaysInactive maxDays' : Z)
    (st st1 : Store) (s : StreakData) :
  StreakManager.getStreakData st = Some s ->
  StreakManager.checkStreakExpiry clk maxDaysInactive st = Some (st1, true) ->
  StreakManager.checkStreakExpiry clk' maxDays' st1 = Some (st1, false)
  /\ exists s1,
       StreakManager.getStreakData st1 = Some s1
       /\ isInStreak s1 = isInStreak s
       /\ consecutiveCorrectAnswers s1 = consecutiveCorrectAnswers s
       /\ (isInStreak s = true ->
           StreakManager.getStreakMessage s1
           = "🔥 Streak Actief! 0 goede antwoorden op een rij!").
Proof.
  intros Hs Hfire.
  unfold StreakManager.checkStreakExpiry in Hfire. rewrite Hs in Hfire.
  simpl in Hfire.
  destruct (String.eqb (lastQuizDate s) "" || (currentStreak s =? 0));
    [by simplify_eq|].
  destruct (date_ms clk (lastQuizDate s)) as [t|]; [|by simplify_eq].
  destruct (_ <? _); [|by simplify_eq].
  simplify_eq. split.
  - unfold StreakManager.checkStreakExpiry.
    rewrite getStreakData_save. simpl. by rewrite orb_true_r.
  - eexists. split; [apply getStreakData_save|].
    split; [done|]. split; [done|].
    intros Hin. unfold StreakManager.getStreakMessage. simpl.
    by rewrite Hin.
Qed.

Lemma X13_expiry_once_witness :
  StreakManager.checkStreakExpiry tenDaysClock 0
    (StreakManager.saveStreakData
       (mkStreakData 0 4 "Thu Jan 01 1970" 1 1 2 4 true) activeStore)
  = Some (StreakManager.saveStreakData
            (mkStreakData 0 4 "Thu Jan 01 1970" 1 1 2 4 true) activeStore,
          false).
Proof.
  apply (X13_expiry_once tenDaysClock tenDaysClock 7 0 activeStore _
           (mkStreakData 4 4 "Thu Jan 01 1970" 1 1 2 4 true));
    [reflexivity | vm_compute; reflexivity].
Defined.

(** * Further properties of the leaderboard engine *)

Section BoardExtras.
Import LeaderboardManager.

Lemma names_imap_setRank (l : list LeaderboardEntry) :
  Entry.playerName <$> imap setRank l = Entry.playerName <$> l.
Proof.
  rewrite fmap_imap.
  rewrite (imap_ext _ (const Entry.playerName)) by (by intros ? [] ?).
  apply imap_const.
Qed.

Lemma upsertEntry_names_NoDup clk p sd (l : list LeaderboardEntry) :
  NoDup (Entry.playerName <$> l) ->
  NoDup (Entry.playerName <$> upsertEntry clk p sd l).
Proof.
  intros Hnodup. unfold upsertEntry.
  destruct (list_find _ l) as [[i e]|] eqn:Hfind.
  - apply list_find_Some in Hfind as (Hi & Hname & _).
    rewrite list_fmap_insert. simpl.
    rewrite list_insert_id; [done|].
    by rewrite list_lookup_fmap, Hi.
  - apply list_find_None in Hfind. rewrite fmap_app. simpl.
    apply NoDup_app. split; [done|]. split; [|apply NoDup_singleton].
    intros x Hx Hin. apply list_elem_of_singleton in Hin as ->.
    apply list_elem_of_fmap_1 in Hx as (e & Heq & He).
    rewrite Forall_forall in Hfind. by apply (Hfind e He).
Qed.

Lemma whole_names_NoDup clk p sd (l : list LeaderboardEntry) :
  NoDup (Entry.playerName <$> l) ->
  NoDup (Entry.playerName
           <$> imap setRank (array_sort compareEntries
                               (upsertEntry clk p sd l))).
Proof.
  intros Hnodup. rewrite names_imap_setRank, array_sort_perm.
  by apply upsertEntry_names_NoDup.
Qed.

Lemma take_names_NoDup (n : nat) (l : list LeaderboardEntry) :
  NoDup (Entry.playerName <$> l) -> NoDup (Entry.playerName <$> take n l).
Proof.
  intros Hnodup. rewrite fmap_take.
  eapply sublist_NoDup; [exact Hnodup|apply sublist_take].
Qed.

(** After the first part of [updateLeaderboard] the player is in the
    list. *)
Lemma upsertEntry_has_player clk p sd (l : list LeaderboardEntry) :
  exists i r0, upsertEntry clk p sd l !! i = Some (entryOf clk p sd r0).
Proof.
  unfold upsertEntry.
  destruct (list_find _ l) as [[i e]|] eqn:Hfind.
  - apply list_find_Some in Hfind as (Hi & Hname & _).
    exists i, (Entry.rank e). rewrite Hname.
    apply list_lookup_insert_eq. by eapply lookup_lt_Some.
  - exists (length l), 0.
    rewrite lookup_app_r by lia. by rewrite Nat.sub_diag.
Qed.

(** The place of the player in the whole sorted list. *)
Lemma player_slot clk p sd (l : list LeaderboardEntry) :
  exists j : nat,
    imap setRank (array_sort compareEntries (upsertEntry clk p sd l)) !! j
    = Some (entryOf clk p sd (Z.of_nat j + 1)).
Proof.
  destruct (upsertEntry_has_player clk p sd l) as (i & r0 & Hi).
  apply list_elem_of_lookup_2 in Hi.
  rewrite <- (array_sort_perm compareEntries) in Hi.
  apply list_elem_of_lookup_1 in Hi as [j Hj].
  exists j. by rewrite list_lookup_imap, Hj.
Qed.

Lemma find_unique (l : list LeaderboardEntry) (j : nat) q p :
  NoDup (Entry.playerName <$> l) ->
  l !! j = Some q -> Entry.playerName q = p ->
  list_find (λ entry, Entry.playerName entry = p) l = Some (j, q).
Proof.
  intros Hnodup Hj Hname. apply list_find_Some.
  split; [done|]. split; [done|].
  intros i y Hi Hlt Hy.
  assert (i = j); [|lia].
  eapply (NoDup_lookup _ i j p Hnodup);
    rewrite list_lookup_fmap; [rewrite Hi|rewrite Hj]; simpl; congruence.
Qed.

Lemma name_only_at (l : list LeaderboardEntry) (i j : nat) e q :
  NoDup (Entry.playerName <$> l) ->
  l !! j = Some q -> l !! i = Some e -> i ≠ j ->
  Entry.playerName e ≠ Entry.playerName q.
Proof.
  intros Hnodup Hj Hi Hne Heq. apply Hne.
  eapply (NoDup_lookup _ i j (Entry.playerName q) Hnodup);
    rewrite list_lookup_fmap; [rewrite Hi|rewrite Hj]; simpl; congruence.
Qed.

Lemma key_ge_rank_blind a b r r' clk p sd :
  key_ge a (entryOf clk p sd r) -> b = entryOf clk p sd r' -> key_ge a b.
Proof. by intros H ->. Qed.

(** Where the player ends up: inside the first hundred, found by
    [find] at its place, or beyond, with a hundred entries that are not
    worse before it. *)
Lemma player_rank_cases clk sd st :
  NoDup (Entry.playerName <$> loadLeaderboard st) ->
  let p := getPlayerName st in
  let post := loadLeaderboard (updateLeaderboard clk sd st) in
  exists j : nat,
    ((j < 100)%nat
     /\ post !! j = Some (entryOf clk p sd (Z.of_nat j + 1))
     /\ list_find (λ entry, Entry.playerName entry = p) post
        = Some (j, entryOf clk p sd (Z.of_nat j + 1)))
    \/ ((100 <= j)%nat
        /\ length post = 100%nat
        /\ list_find (λ entry, Entry.playerName entry = p) post = None
        /\ Forall (λ e, key_ge e (entryOf clk p sd 0)
                        /\ Entry.playerName e ≠ p) post).
Proof.
  intros Hnodup p post.
  assert (post = take 100 (imap setRank
                             (array_sort compareEntries
                                (upsertEntry clk p sd (loadLeaderboard st)))))
    as Hpost by apply updateLeaderboard_roster.
  set (whole := imap _ _) in Hpost.
  destruct (player_slot clk p sd (loadLeaderboard st)) as [j Hj].
  fold whole in Hj.
  pose proof (whole_names_NoDup clk p sd _ Hnodup) as Hwn. fold whole in Hwn.
  pose proof (sorted_roster_ordered
                (upsertEntry clk p sd (loadLeaderboard st))) as Hsorted.
  fold whole in Hsorted.
  exists j. destruct (decide (j < 100)%nat) as [Hin|Hout].
  - left. split; [done|].
    assert (post !! j = Some (entryOf clk p sd (Z.of_nat j + 1))) as Hpj.
    { rewrite Hpost, lookup_take_lt by done. exact Hj. }
    split; [done|]. apply find_unique; [|done|done].
    rewrite Hpost. by apply take_names_NoDup.
  - right. split; [lia|].
    assert (Forall (λ e, key_ge e (entryOf clk p sd 0)
                         /\ Entry.playerName e ≠ p) post) as Hall.
    { rewrite Forall_forall. intros e He.
      apply list_elem_of_lookup_1 in He as [i Hi].
      rewrite Hpost in Hi. apply lookup_take_Some in Hi as [Hi Hlt].
      split.
      - eapply key_ge_rank_blind; [|reflexivity].
        eapply (StronglySorted_lookup key_ge whole Hsorted i j);
          [exact Hi|exact Hj|lia].
      - apply (name_only_at whole i j e _ Hwn Hj Hi). lia. }
    split.
    { rewrite Hpost, length_take. apply lookup_lt_Some in Hj. lia. }
    split; [|done].
    apply list_find_None. eapply Forall_impl; [exact Hall|].
    by intros e [_ ?].
Qed.
(** With room in the roster the player is stored, at the place of its
    rank. *)
Lemma player_stored_with_room clk sd st :
  NoDup (Entry.playerName <$> loadLeaderboard st) ->
  (length (loadLeaderboard st) < 100)%nat ->
  1 <= getCurrentPlayerRank (updateLeaderboard clk sd st)
  /\ loadLeaderboard (updateLeaderboard clk sd st)
       !! Z.to_nat (getCurrentPlayerRank (updateLeaderboard clk sd st) - 1)
     = Some (entryOf clk (getPlayerName st) sd
               (getCurrentPlayerRank (updateLeaderboard clk sd st))).
Proof.
  intros Hnodup Hroom.
  pose proof (player_rank_cases clk sd st Hnodup) as Hcases.
  cbv zeta in Hcases.
  assert (getCurrentPlayerRank (updateLeaderboard clk sd st)
          = match
              list_find (λ entry, Entry.playerName entry = getPlayerName st)
                (loadLeaderboard (updateLeaderboard clk sd st))
            with
            | Some (_, playerEntry) => Entry.rank playerEntry
            | None => 0
            end) as Hr.
  { unfold getCurrentPlayerRank. by rewrite getLeaderboard_load. }
  destruct Hcases as [j [(Hlt & Hpj & Hfind)|(Hge & Hfull & _ & Hall)]].
  - rewrite Hr, Hfind. simpl. split; [lia|].
    by replace (Z.to_nat (Z.of_nat j + 1 - 1)) with j by lia.
  - exfalso.
    pose proof (upsertEntry_length_le clk (getPlayerName st) sd
                  (loadLeaderboard st)) as Hle.
    destruct (player_slot clk (getPlayerName st) sd (loadLeaderboard st))
      as [k Hk].
    assert (k < 100)%nat as Hk100.
    { apply lookup_lt_Some in Hk.
      rewrite length_imap, array_sort_length in Hk. lia. }
    rewrite updateLeaderboard_roster in Hall.
    rewrite Forall_forall in Hall.
    destruct (Hall (entryOf clk (getPlayerName st) sd (Z.of_nat k + 1)))
      as [_ Hname]; [|done].
    apply (list_elem_of_lookup_2 _ k). by rewrite lookup_take_lt.
Qed.

(** The stored roster is sorted and ranked by place. *)
Lemma stored_roster_facts clk sd st :
  StronglySorted key_ge (loadLeaderboard (updateLeaderboard clk sd st))
  /\ (forall i e,
        loadLeaderboard (updateLeaderboard clk sd st) !! i = Some e ->
        Entry.rank e = Z.of_nat i + 1).
Proof.
  rewrite updateLeaderboard_roster. split.
  - eapply StronglySorted_app_1_l. rewrite take_drop.
    apply sorted_roster_ordered.
  - intros i e. apply ranked_lookup.
Qed.
End BoardExtras.

(** X14: setPlayerName then getPlayerName gives the name back, except that
    the empty name reads as 'Anonymous Player', as a missing name does;
    getPlayerName never returns the empty string. *)
Theorem X14_player_name_round_trip (name : string) (st : Store) :
  LeaderboardManager.getPlayerName (LeaderboardManager.setPlayerName name st)
  = (if String.eqb name "" then "Anonymous Player" else name)
  /\ (player_name_item st = None ->
      LeaderboardManager.getPlayerName st = "Anonymous Player")
  /\ LeaderboardManager.getPlayerName st ≠ ""
  /\ LeaderboardManager.loadLeaderboard
       (LeaderboardManager.setPlayerName name st)
     = LeaderboardManager.loadLeaderboard st.
Proof.
  split; [done|]. split.
  { intros Hnone. unfold LeaderboardManager.getPlayerName. by rewrite Hnone. }
  split; [|done].
  unfold LeaderboardManager.getPlayerName.
  destruct (player_name_item st) as [n|]; [|done].
  destruct (String.eqb_spec n ""); done.
Qed.

Lemma X14_player_name_round_trip_witness :
  LeaderboardManager.getPlayerName emptyStore = "Anonymous Player".
Proof.
  apply (proj1 (proj2 (X14_player_name_round_trip "" emptyStore))).
  reflexivity.
Defined.

(** X15: updateLeaderboard keeps the player names of the roster distinct:
    a roster without two entries of one name has none afterwards. *)
Theorem X15_names_stay_distinct (clk : Clock) (sd : StreakData) (st : Store) :
  NoDup (Entry.playerName <$> LeaderboardManager.loadLeaderboard st) ->
  NoDup (Entry.playerName
           <$> LeaderboardManager.loadLeaderboard
                 (LeaderboardManager.updateLeaderboard clk sd st)).
Proof.
  intros Hnodup. rewrite updateLeaderboard_roster.
  by apply take_names_NoDup, whole_names_NoDup.
Qed.

Lemma X15_names_stay_distinct_witness :
  NoDup (Entry.playerName
           <$> LeaderboardManager.loadLeaderboard
                 (LeaderboardManager.updateLeaderboard tenDaysClock
                    (statsOf 100 20 3) fiveStore)).
Proof.
  apply (X15_names_stay_distinct tenDaysClock (statsOf 100 20 3) fiveStore).
  apply (bool_decide_unpack _). vm_compute. exact I.
Defined.

(** X16: on a roster of distinct names, after updateLeaderboard the rank of
    the current player is either r >= 1, and then the entry at place r - 1
    is the player's, with the statistics just submitted and rank r; or it
    is 0, and then the roster holds 100 entries of other players, none of
    them worse than the statistics submitted. With fewer than 100 entries
    before, the rank is not 0. *)
Theorem X16_rank_after_update (clk : Clock) (sd : StreakData) (st : Store) :
  NoDup (Entry.playerName <$> LeaderboardManager.loadLeaderboard st) ->
  let p := LeaderboardManager.getPlayerName st in
  let st' := LeaderboardManager.updateLeaderboard clk sd st in
  let post := LeaderboardManager.loadLeaderboard st' in
  let r := LeaderboardManager.getCurrentPlayerRank st' in
  ((1 <= r <= Z.of_nat (length post)
    /\ post !! Z.to_nat (r - 1) = Some (entryOf clk p sd r))
   \/ (r = 0
       /\ length post = 100%nat
       /\ Forall (λ e, key_ge e (entryOf clk p sd 0)
                       /\ Entry.playerName e ≠ p) post))
  /\ ((length (LeaderboardManager.loadLeaderboard st) < 100)%nat -> 1 <= r).
Proof.
  intros Hnodup p st' post r.
  assert (r = match list_find (λ entry, Entry.playerName entry = p) post with
              | Some (_, playerEntry) => Entry.rank playerEntry
              | None => 0
              end) as Hr.
  { subst r. unfold LeaderboardManager.getCurrentPlayerRank.
    by rewrite getLeaderboard_load. }
  pose proof (player_rank_cases clk sd st Hnodup) as Hcases.
  cbv zeta in Hcases. fold p st' post in Hcases.
  destruct Hcases
    as [j [(Hlt & Hpj & Hfind)|(Hge & Hlen & Hfind & Hall)]];
    rewrite Hfind in Hr; simpl in Hr.
  - split; [|lia]. left. rewrite Hr.
    split; [apply lookup_lt_Some in Hpj; lia|].
    by replace (Z.to_nat (Z.of_nat j + 1 - 1)) with j by lia.
  - split; [by right|].
    intros Hroom. exfalso. clear Hr. subst r post st' p.
    pose proof (upsertEntry_length_le clk (LeaderboardManager.getPlayerName st)
                  sd (LeaderboardManager.loadLeaderboard st)) as Hle.
    destruct (player_slot clk (LeaderboardManager.getPlayerName st) sd
                (LeaderboardManager.loadLeaderboard st)) as [k Hk].
    assert (k < 100)%nat as Hk100.
    { apply lookup_lt_Some in Hk.
      rewrite length_imap, array_sort_length in Hk. lia. }
    rewrite updateLeaderboard_roster in Hall.
    rewrite Forall_forall in Hall.
    destruct (Hall (entryOf clk (LeaderboardManager.getPlayerName st) sd
                      (Z.of_nat k + 1))) as [_ Hname]; [|done].
    apply (list_elem_of_lookup_2 _ k). by rewrite lookup_take_lt.
Qed.

Lemma X16_rank_after_update_witness :
  1 <= LeaderboardManager.getCurrentPlayerRank
         (LeaderboardManager.updateLeaderboard tenDaysClock
            (statsOf 100 20 3) fiveStore).
Proof.
  apply (proj2 (X16_rank_after_update tenDaysClock (statsOf 100 20 3)
                  fiveStore
                  ltac:(apply (bool_decide_unpack _); vm_compute; exact I))).
  vm_compute. lia.
Defined.

(** X17: for a rank r >= 1 and a range >= 0, getPlayersAroundRank(r, range)
    contains the entry at place r - 1 of the roster, the place of rank r
    after an update, and returns at most 2 * range + 1 entries. *)
Theorem X17_window_holds_rank (r range : Z) (st : Store)
    (e : LeaderboardEntry) :
  1 <= r -> 0 <= range ->
  LeaderboardManager.loadLeaderboard st !! Z.to_nat (r - 1) = Some e ->
  e ∈ LeaderboardManager.getPlayersAroundRank r range st
  /\ Z.of_nat (length (LeaderboardManager.getPlayersAroundRank r range st))
     <= 2 * range + 1.
Proof.
  intros Hr Hrange He.
  unfold LeaderboardManager.getPlayersAroundRank. cbv zeta.
  rewrite getLeaderboard_load, array_slice_window by lia.
  set (roster := LeaderboardManager.loadLeaderboard st) in *.
  pose proof (lookup_lt_Some _ _ _ He) as Hlt.
  destruct (Z.min (Z.of_nat (length roster)) (r + range) <? 0) eqn:Hneg;
    [apply Z.ltb_lt in Hneg; lia|].
  rewrite window_take_drop by lia. split.
  - apply (list_elem_of_lookup_2 _
             (Z.to_nat (r - 1) - Z.to_nat (Z.max 0 (r - range - 1)))).
    rewrite lookup_take_lt by lia. rewrite lookup_drop.
    rewrite <- He. f_equal. lia.
  - rewrite length_take, length_drop. lia.
Qed.

Lemma X17_window_holds_rank_witness :
  Entry.mk "Study Pro" 128 18 16 "1970-01-01T00:00:00.000Z" 2
    ∈ LeaderboardManager.getPlayersAroundRank 2 1 fiveStore
  /\ Z.of_nat (length (LeaderboardManager.getPlayersAroundRank 2 1 fiveStore))
     <= 2 * 1 + 1.
Proof.
  apply (X17_window_holds_rank 2 1 fiveStore); [lia | lia | reflexivity].
Defined.

(** X18: getTopPlayers(limit) returns the first limit entries of the roster
    for limit >= 0 (all of them when there are fewer), and all but the last
    -limit entries for limit < 0, since slice counts a negative end from
    the end. After an update the entries returned for limit >= 0 carry the
    ranks 1, 2, ... and none of them is worse than an entry left out. *)
Theorem X18_top_players (clk : Clock) (sd : StreakData) (limit : Z)
    (st : Store) :
  let roster := LeaderboardManager.loadLeaderboard st in
  let st' := LeaderboardManager.updateLeaderboard clk sd st in
  let post := LeaderboardManager.loadLeaderboard st' in
  (0 <= limit ->
   LeaderboardManager.getTopPlayers limit st = take (Z.to_nat limit) roster)
  /\ (limit < 0 ->
      LeaderboardManager.getTopPlayers limit st
      = take (length roster - Z.to_nat (- limit)) roster)
  /\ (0 <= limit ->
      Entry.rank <$> LeaderboardManager.getTopPlayers limit st'
      = seqZ 1 (Z.min limit (Z.of_nat (length post)))
      /\ forall i j a b,
           LeaderboardManager.getTopPlayers limit st' !! i = Some a ->
           post !! j = Some b -> limit <= Z.of_nat j -> key_ge a b).
Proof.
  intros roster st' post.
  assert (forall s0,
    LeaderboardManager.getTopPlayers limit s0
    = array_slice (LeaderboardManager.loadLeaderboard s0) 0 limit) as Htop.
  { intros s0. unfold LeaderboardManager.getTopPlayers.
    by rewrite getLeaderboard_load. }
  split; [|split].
  - intros Hpos. rewrite Htop. by apply array_slice_take.
  - intros Hneg. rewrite Htop. fold roster.
    rewrite array_slice_window by lia.
    destruct (limit <? 0) eqn:Hlt; [|apply Z.ltb_ge in Hlt; lia].
    rewrite window_take_drop by lia. change (Z.to_nat 0) with 0%nat.
    rewrite drop_0. f_equal. lia.
  - intros Hpos. rewrite Htop. fold post.
    rewrite array_slice_take by done.
    pose proof (stored_roster_facts clk sd st) as (Hsorted & Hrank).
    fold st' post in Hsorted, Hrank.
    split.
    + rewrite ranks_seqZ.
      * f_equal. rewrite length_take. lia.
      * intros i e Hi. apply lookup_take_Some in Hi as [Hi _].
        by apply Hrank.
    + intros i j a b Hi Hj Hle.
      apply lookup_take_Some in Hi as [Hi Hlt].
      eapply (StronglySorted_lookup key_ge post Hsorted i j); eauto. lia.
Qed.

Lemma X18_top_players_witness :
  LeaderboardManager.getTopPlayers 2 fiveStore
  = [ Entry.mk "Quiz Master" 150 25 20 "1970-01-01T00:00:00.000Z" 1;
      Entry.mk "Study Pro" 128 18 16 "1970-01-01T00:00:00.000Z" 2 ].
Proof.
  rewrite (proj1 (X18_top_players tenDaysClock (statsOf 0 0 0) 2 fiveStore));
    [reflexivity | lia].
Defined.

Section ResubmitFacts.
Import LeaderboardManager.

(** A list that is in order is left as it is by the sort. *)
Lemma array_sort_sorted_id {A} (compareFn : A -> A -> Z) (l : list A) :
  StronglySorted (λ a b, compareFn a b <= 0) l -> array_sort compareFn l = l.
Proof.
  induction 1 as [|x l Hsorted IH Hall]; [done|].
  simpl. rewrite IH. destruct l as [|y l]; [done|]. simpl.
  apply Forall_cons in Hall as [Hxy _].
  destruct (0 <? compareFn x y) eqn:E; [apply Z.ltb_lt in E; lia|done].
Qed.

Lemma imap_setRank_id (l : list LeaderboardEntry) :
  (forall i e, l !! i = Some e -> Entry.rank e = Z.of_nat i + 1) ->
  imap setRank l = l.
Proof.
  intros Hrank. apply list_eq. intros i. rewrite list_lookup_imap.
  destruct (l !! i) as [e|] eqn:Hi; [|done]. simpl.
  specialize (Hrank i e Hi). destruct e; simpl in *. by subst.
Qed.

Lemma touch_other clk p e : Entry.playerName e ≠ p -> touch clk p e = e.
Proof.
  intros Hne. unfold touch.
  destruct (String.eqb_spec (Entry.playerName e) p); done.
Qed.

Lemma touch_player clk clk' p sd r :
  touch clk' p (entryOf clk p sd r) = entryOf clk' p sd r.
Proof. unfold touch, entryOf. simpl. by rewrite String.eqb_refl. Qed.

Lemma touch_rank clk p e : Entry.rank (touch clk p e) = Entry.rank e.
Proof. unfold touch. by destruct (String.eqb _ _). Qed.

Lemma touch_key_ge clk p a b :
  key_ge a b -> key_ge (touch clk p a) (touch clk p b).
Proof.
  unfold touch. by destruct (String.eqb _ _), (String.eqb _ _).
Qed.

Lemma touch_fmap_insert clk p (l : list LeaderboardEntry) (j : nat) q :
  NoDup (Entry.playerName <$> l) ->
  l !! j = Some q -> Entry.playerName q = p ->
  touch clk p <$> l = <[j := touch clk p q]> l.
Proof.
  intros Hnodup Hj Hname. apply list_eq. intros i.
  rewrite list_lookup_fmap.
  destruct (decide (i = j)) as [->|Hne].
  - rewrite list_lookup_insert_eq by (by eapply lookup_lt_Some).
    by rewrite Hj.
  - rewrite list_lookup_insert_ne by done.
    destruct (l !! i) as [e|] eqn:Hi; [|done]. simpl. f_equal.
    apply touch_other. rewrite <- Hname.
    by apply (name_only_at l i j e q).
Qed.

Lemma sorted_ranked_fixed (l : list LeaderboardEntry) :
  StronglySorted key_ge l ->
  (forall i e, l !! i = Some e -> Entry.rank e = Z.of_nat i + 1) ->
  (length l <= 100)%nat ->
  take 100 (imap setRank (array_sort compareEntries l)) = l.
Proof.
  intros Hsorted Hrank Hlen.
  rewrite array_sort_sorted_id.
  - rewrite imap_setRank_id by done. by apply take_ge.
  - eapply StronglySorted_weaken; [|exact Hsorted].
    intros a b. apply compareEntries_key_ge.
Qed.
End ResubmitFacts.

(** X19: submitting the same statistics again changes nothing in the
    roster but the lastActive of the player's entry: on a roster of
    distinct names, a second updateLeaderboard with the same record leaves
    every entry, place and rank as the first left them. *)
Theorem X19_resubmit_changes_nothing (clk1 clk2 : Clock) (sd : StreakData)
    (st : Store) :
  NoDup (Entry.playerName <$> LeaderboardManager.loadLeaderboard st) ->
  let p := LeaderboardManager.getPlayerName st in
  let st1 := LeaderboardManager.updateLeaderboard clk1 sd st in
  LeaderboardManager.loadLeaderboard
    (LeaderboardManager.updateLeaderboard clk2 sd st1)
  = touch clk2 p <$> LeaderboardManager.loadLeaderboard st1.
Proof.
  intros Hnodup p st1.
  set (post1 := LeaderboardManager.loadLeaderboard st1).
  rewrite updateLeaderboard_roster.
  change (LeaderboardManager.getPlayerName st1) with p. fold post1.
  pose proof (stored_roster_facts clk1 sd st) as (Hsorted & Hrank).
  fold st1 post1 in Hsorted, Hrank.
  assert (NoDup (Entry.playerName <$> post1)) as Hnodup1.
  { subst post1 st1. rewrite updateLeaderboard_roster.
    by apply take_names_NoDup, whole_names_NoDup. }
  assert (length post1 <= 100)%nat as Hlen.
  { subst post1 st1. rewrite updateLeaderboard_roster, length_take. lia. }
  pose proof (player_rank_cases clk1 sd st Hnodup) as Hcases.
  cbv zeta in Hcases. fold p st1 post1 in Hcases.
  destruct Hcases as [j [(Hlt & Hpj & Hfind)|(Hge & Hfull & Hfind & Hall)]].
  - assert (LeaderboardManager.upsertEntry clk2 p sd post1
            = touch clk2 p <$> post1) as ->.
    { unfold LeaderboardManager.upsertEntry. rewrite Hfind.
      rewrite (touch_fmap_insert clk2 p post1 j _ Hnodup1 Hpj eq_refl).
      by rewrite touch_player. }
    apply sorted_ranked_fixed.
    + eapply StronglySorted_fmap; [|exact Hsorted].
      intros a b. apply touch_key_ge.
    + intros i e Hi. rewrite list_lookup_fmap in Hi.
      destruct (post1 !! i) as [e0|] eqn:Hi0; [|done].
      simpl in Hi. injection Hi as <-. rewrite touch_rank. by apply Hrank.
    + by rewrite length_fmap.
  - assert (touch clk2 p <$> post1 = post1) as ->.
    { rewrite <- (list_fmap_id post1) at 2. apply Forall_fmap_ext.
      eapply Forall_impl; [exact Hall|].
      intros e [_ Hne]. by apply touch_other. }
    unfold LeaderboardManager.upsertEntry. rewrite Hfind.
    rewrite array_sort_sorted_id.
    + rewrite imap_app, imap_setRank_id by done.
      by apply take_app_length'.
    + eapply StronglySorted_weaken;
        [intros a b; apply compareEntries_key_ge|].
      apply StronglySorted_app_2; [|done|repeat constructor].
      intros x1 x2 Hx1 Hx2. apply list_elem_of_singleton in Hx2 as ->.
      rewrite Forall_forall in Hall. by destruct (Hall x1 Hx1).
Qed.

Lemma X19_resubmit_changes_nothing_witness :
  LeaderboardManager.loadLeaderboard
    (LeaderboardManager.updateLeaderboard tenDaysClock (statsOf 100 20 3)
       (LeaderboardManager.updateLeaderboard tenDaysClock (statsOf 100 20 3)
          fiveStore))
  = touch tenDaysClock "Study Pro"
      <$> LeaderboardManager.loadLeaderboard
            (LeaderboardManager.updateLeaderboard tenDaysClock
               (statsOf 100 20 3) fiveStore).
Proof.
  apply (X19_resubmit_changes_nothing tenDaysClock tenDaysClock
           (statsOf 100 20 3) fiveStore).
  apply (bool_decide_unpack _). vm_compute. exact I.
Defined.

(** X20: after clearLeaderboard the player has rank 0 and the roster is
    empty; the first updateLeaderboard after it stores the player alone,
    with rank 1. *)
Theorem X20_first_submission (clk : Clock) (sd : StreakData) (st : Store) :
  let cleared := LeaderboardManager.clearLeaderboard st in
  let st' := LeaderboardManager.updateLeaderboard clk sd cleared in
  LeaderboardManager.getCurrentPlayerRank cleared = 0
  /\ LeaderboardManager.getTopPlayers 10 cleared = []
  /\ LeaderboardManager.loadLeaderboard st'
     = [entryOf clk (LeaderboardManager.getPlayerName st) sd 1]
  /\ LeaderboardManager.getCurrentPlayerRank st' = 1.
Proof.
  intros cleared st'. split; [done|]. split; [done|].
  assert (LeaderboardManager.loadLeaderboard st'
          = [entryOf clk (LeaderboardManager.getPlayerName st) sd 1]) as Hpost.
  { subst st' cleared. by rewrite updateLeaderboard_roster. }
  split; [done|].
  unfold LeaderboardManager.getCurrentPlayerRank.
  rewrite getLeaderboard_load, Hpost. cbn.
  rewrite decide_True; done.
Qed.

(** X21: at the end of a quiz, showResults stores a record with one more
    quiz taken (and one more passed, when passed) and submits that record:
    on a roster of distinct names with fewer than 100 entries the player's
    entry then shows the totalPoints, longestStreak and totalQuizzesPassed
    of the stored streak record, at the place of its rank. *)
Theorem X21_results_reach_leaderboard (clk : Clock) (passed : bool)
    (st : Store) (s : StreakData) :
  StreakManager.getStreakData st = Some s ->
  NoDup (Entry.playerName <$> LeaderboardManager.loadLeaderboard st) ->
  (length (LeaderboardManager.loadLeaderboard st) < 100)%nat ->
  exists st' d r,
    StudyEZApp.showResults clk passed st = Some (st', d)
    /\ StreakManager.getStreakData st' = Some d
    /\ totalQuizzesTaken d = totalQuizzesTaken s + 1
    /\ totalQuizzesPassed d
       = totalQuizzesPassed s + (if passed then 1 else 0)
    /\ totalPoints d = totalPoints s
    /\ longestStreak d = longestStreak s
    /\ LeaderboardManager.getCurrentPlayerRank st' = r
    /\ 1 <= r
    /\ LeaderboardManager.loadLeaderboard st' !! Z.to_nat (r - 1)
       = Some (Entry.mk (LeaderboardManager.getPlayerName st)
                 (totalPoints d) (longestStreak d) (totalQuizzesPassed d)
                 (now_iso clk) r).
Proof.
  intros Hs Hnodup Hroom.
  unfold StudyEZApp.showResults.
  rewrite (quizStats_read clk passed st s Hs).
  set (d := mkStreakData _ _ _ _ _ _ _ _).
  set (st1 := StreakManager.saveStreakData d st).
  pose proof (player_stored_with_room clk d st1) as Hcore.
  change (LeaderboardManager.loadLeaderboard st1)
    with (LeaderboardManager.loadLeaderboard st) in Hcore.
  change (LeaderboardManager.getPlayerName st1)
    with (LeaderboardManager.getPlayerName st) in Hcore.
  destruct (Hcore Hnodup Hroom) as (Hr & Hentry).
  eexists _, d, _. split; [reflexivity|].
  split; [exact (getStreakData_save d st)|].
  repeat split; try done.
Qed.

Lemma X21_results_reach_leaderboard_witness :
  exists st' d r,
    StudyEZApp.showResults tenDaysClock true
      (StreakManager.saveStreakData
         (mkStreakData 4 4 "Thu Jan 01 1970" 1 1 2 4 true) fiveStore)
    = Some (st', d)
    /\ StreakManager.getStreakData st' = Some d
    /\ totalQuizzesTaken d = 1 + 1
    /\ totalQuizzesPassed d = 1 + 1
    /\ totalPoints d = 2
    /\ longestStreak d = 4
    /\ LeaderboardManager.getCurrentPlayerRank st' = r
    /\ 1 <= r
    /\ LeaderboardManager.loadLeaderboard st' !! Z.to_nat (r - 1)
       = Some (Entry.mk "Study Pro" (totalPoints d) (longestStreak d)
                 (totalQuizzesPassed d) (now_iso tenDaysClock) r).
Proof.
  apply (X21_results_reach_leaderboard tenDaysClock true
           (StreakManager.saveStreakData
              (mkStreakData 4 4 "Thu Jan 01 1970" 1 1 2 4 true) fiveStore)
           (mkStreakData 4 4 "Thu Jan 01 1970" 1 1 2 4 true)).
  - apply getStreakData_save.
  - apply (bool_decide_unpack _). vm_compute. exact I.
  - vm_compute. lia.
Defined.

(** X22: savePlayerName does nothing for an empty name. For a new name
    that is not in a roster of fewer than 100 entries it adds an entry
    under the new name and removes none: the entry under the former name
    stays in the roster with its statistics. *)
Theorem X22_rename_keeps_old_entry (clk : Clock) (name : string)
    (sd : StreakData) (st : Store) :
  (name = "" -> StudyEZApp.savePlayerName clk name sd st = st)
  /\ (name ≠ "" ->
      name ∉ Entry.playerName <$> LeaderboardManager.loadLeaderboard st ->
      (length (LeaderboardManager.loadLeaderboard st) < 100)%nat ->
      let st' := StudyEZApp.savePlayerName clk name sd st in
      LeaderboardManager.getPlayerName st' = name
      /\ payload <$> LeaderboardManager.loadLeaderboard st'
         ≡ₚ payload (entryOf clk name sd 0)
            :: (payload <$> LeaderboardManager.loadLeaderboard st)
      /\ forall e, e ∈ LeaderboardManager.loadLeaderboard st ->
           exists e', e' ∈ LeaderboardManager.loadLeaderboard st'
                      /\ payload e' = payload e).
Proof.
  split.
  { intros ->. done. }
  intros Hname Hnew Hroom st'.
  assert (st' = LeaderboardManager.updateLeaderboard clk sd
                  (LeaderboardManager.setPlayerName name st)) as Hst'.
  { subst st'. unfold StudyEZApp.savePlayerName.
    destruct name as [|c name]; [done|].
    assert ((0 <? Z.of_nat (String.length (String c name))) = true) as ->
      by (apply Z.ltb_lt; simpl String.length; lia).
    done. }
  assert (LeaderboardManager.getPlayerName
            (LeaderboardManager.setPlayerName name st) = name) as Hp.
  { unfold LeaderboardManager.getPlayerName; simpl.
    destruct (String.eqb_spec name ""); done. }
  assert (payload <$> LeaderboardManager.loadLeaderboard st'
          ≡ₚ payload (entryOf clk name sd 0)
             :: (payload <$> LeaderboardManager.loadLeaderboard st)) as Hperm.
  { rewrite Hst', updateLeaderboard_roster, Hp.
    change (LeaderboardManager.loadLeaderboard
              (LeaderboardManager.setPlayerName name st))
      with (LeaderboardManager.loadLeaderboard st).
    pose proof (upsertEntry_length_new clk name sd _ Hnew) as Hlen.
    rewrite take_ge
      by (rewrite length_imap, array_sort_length; lia).
    rewrite fmap_imap.
    rewrite (imap_ext _ (const payload)) by (by intros ? [] ?).
    rewrite imap_const, array_sort_perm.
    unfold LeaderboardManager.upsertEntry.
    assert (list_find (λ entry, Entry.playerName entry = name)
              (LeaderboardManager.loadLeaderboard st) = None) as ->.
    { apply list_find_None, Forall_forall. intros e He Heq.
      apply Hnew. rewrite <- Heq. by apply list_elem_of_fmap_2. }
    rewrite fmap_app. simpl.
    by rewrite <- Permutation_cons_append. }
  split; [by rewrite Hst'|]. split; [done|].
  intros e He.
  assert (payload e ∈ payload <$> LeaderboardManager.loadLeaderboard st')
    as Hin.
  { rewrite Hperm. apply list_elem_of_further.
    by apply list_elem_of_fmap_2. }
  apply list_elem_of_fmap_1 in Hin as (e' & Heq & He'). by exists e'.
Qed.

Lemma X22_rename_keeps_old_entry_witness :
  exists e',
    e' ∈ LeaderboardManager.loadLeaderboard
           (StudyEZApp.savePlayerName tenDaysClock "Pro Again"
              (statsOf 128 18 16) fiveStore)
    /\ payload e'
       = payload (Entry.mk "Study Pro" 128 18 16 "1970-01-01T00:00:00.000Z" 2).
Proof.
  apply (proj2 (proj2 (proj2 (X22_rename_keeps_old_entry tenDaysClock
                                "Pro Again" (statsOf 128 18 16) fiveStore)
                                ltac:(discriminate)
                                ltac:(apply (bool_decide_unpack _);
                                      vm_compute; exact I)
                                ltac:(vm_compute; lia)))).
  apply (list_elem_of_lookup_2 _ 1%nat). reflexivity.
Defined.

(** * Properties of QuizManager *)

Section QuizFacts.
Import QuizManager.

Lemma quiz_active_question quiz s :
  quiz_active quiz s ->
  exists q,
    getCurrentQuestion s = Some q
    /\ Quiz.questions quiz !! Z.to_nat (currentQuestionIndex s) = Some q.
Proof.
  intros (Hquiz & Hidx & _). unfold getCurrentQuestion. rewrite Hquiz.
  destruct (0 <=? currentQuestionIndex s) eqn:E;
    [|apply Z.leb_gt in E; lia].
  destruct (lookup_lt_is_Some_2 (Quiz.questions quiz)
              (Z.to_nat (currentQuestionIndex s))) as [q Hq]; [lia|].
  by exists q.
Qed.

Lemma doQuizCall_active quiz c s :
  quiz_active quiz s ->
  exists s', doQuizCall c s = Returned s' /\ quiz_active quiz s'
             /\ startTime s' = startTime s.
Proof.
  intros Hactive.
  destruct (quiz_active_question quiz s Hactive) as (q & Hq & _).
  destruct Hactive as (Hquiz & Hidx & Hdone).
  destruct c as [| |index|answerId]; simpl.
  - unfold nextQuestion. rewrite Hquiz.
    destruct (_ <? _) eqn:E;
      [apply Z.ltb_lt in E|]; eexists; (split; [reflexivity|]);
      unfold quiz_active; simpl; repeat split; try done; lia.
  - unfold previousQuestion. rewrite Hquiz.
    destruct (_ <? _) eqn:E;
      [apply Z.ltb_lt in E|]; eexists; (split; [reflexivity|]);
      unfold quiz_active; simpl; repeat split; try done; lia.
  - unfold goToQuestion. rewrite Hquiz.
    destruct (_ && _) eqn:E;
      [apply andb_true_iff in E as [E1 E2];
       apply Z.leb_le in E1; apply Z.ltb_lt in E2|];
      eexists; (split; [reflexivity|]);
      unfold quiz_active; simpl; repeat split; try done; lia.
  - unfold answerQuestion. rewrite Hquiz, Hdone, Hq.
    eexists. split; [reflexivity|].
    unfold quiz_active; simpl. repeat split; try done; lia.
Qed.

(** The loop of [completeQuiz], as a count and a map. *)
Lemma gradeLoop_spec recorded (questions : list Question.Question) :
  forall count0 answers0,
    foldl (gradeQuestion recorded) (count0, answers0) questions
    = (count0
       + Z.of_nat
           (length (filter
                      (λ q, default "" (recorded !! Question.id q)
                            = Question.correctAnswerId q) questions)),
       answers0
       ++ ((λ q, UserAnswer.mk (Question.id q)
                   (default "" (recorded !! Question.id q))
                   (String.eqb (default "" (recorded !! Question.id q))
                      (Question.correctAnswerId q)) q) <$> questions)).
Proof.
  induction questions as [|q questions IH]; intros count0 answers0; simpl.
  - by rewrite Z.add_0_r, app_nil_r.
  - rewrite IH, filter_cons, <- app_assoc. simpl.
    destruct (String.eqb_spec (default "" (recorded !! Question.id q))
                (Question.correctAnswerId q)) as [Heq|Hne].
    + rewrite decide_True by done. simpl length. f_equal. lia.
    + by rewrite decide_False.
Qed.
End QuizFacts.

(** X23: once a quiz with at least one question is started, no sequence
    of next, previous, go-to and answer calls throws, the index of the
    current question stays within the questions of the quiz, and
    getCurrentQuestion returns the question at that index. *)
Theorem X23_navigation_stays_in_range (clk : Clock) (quiz : Quiz.Quiz)
    (calls : list QuizCall) (s0 : QuizState) :
  Quiz.questions quiz ≠ [] ->
  exists s q,
    runQuizCalls calls (QuizManager.startQuiz clk quiz s0) = Returned s
    /\ currentQuiz s = Some quiz
    /\ 0 <= currentQuestionIndex s < Z.of_nat (length (Quiz.questions quiz))
    /\ isCompleted s = false
    /\ startTime s = Some (now_ms clk)
    /\ QuizManager.getCurrentQuestion s = Some q
    /\ Quiz.questions quiz !! Z.to_nat (currentQuestionIndex s) = Some q.
Proof.
  intros Hnonempty.
  assert (quiz_active quiz (QuizManager.startQuiz clk quiz s0)) as Hstart.
  { unfold quiz_active; simpl. repeat split; try done.
    destruct (Quiz.questions quiz); [done|]. simpl. lia. }
  assert (startTime (QuizManager.startQuiz clk quiz s0) = Some (now_ms clk))
    as Htime by done.
  revert Hstart Htime. generalize (QuizManager.startQuiz clk quiz s0).
  induction calls as [|c calls IH]; intros s Hactive Htime; simpl.
  - destruct (quiz_active_question quiz s Hactive) as (q & Hq & Hlook).
    destruct Hactive as (Hquiz & Hidx & Hdone). by exists s, q.
  - destruct (doQuizCall_active quiz c s Hactive)
      as (s' & Hcall & Hactive' & Htime').
    rewrite Hcall. apply IH; [done|congruence].
Qed.

Lemma X23_navigation_stays_in_range_witness :
  exists s q,
    runQuizCalls [CallNext; CallPick "a2"; CallGoTo 7; CallPrevious;
                  CallPrevious; CallPick "a1"]
      (QuizManager.startQuiz tenDaysClock twoQuestions
         QuizManager.initialState) = Returned s
    /\ currentQuiz s = Some twoQuestions
    /\ 0 <= currentQuestionIndex s
       < Z.of_nat (length (Quiz.questions twoQuestions))
    /\ isCompleted s = false
    /\ startTime s = Some (now_ms tenDaysClock)
    /\ QuizManager.getCurrentQuestion s = Some q
    /\ Quiz.questions twoQuestions !! Z.to_nat (currentQuestionIndex s)
       = Some q.
Proof.
  apply (X23_navigation_stays_in_range tenDaysClock twoQuestions).
  discriminate.
Defined.

(** X24: an answer that answerQuestion accepted is the answer that
    getCurrentQuestionAnswer returns; it replaces an earlier answer to the
    same question, leaves the answers recorded under other question ids
    and does not move the current question. *)
Theorem X24_answer_round_trip (answerId : string) (s s' : QuizState) :
  QuizManager.answerQuestion answerId s = Returned s' ->
  QuizManager.getCurrentQuestionAnswer s' = Some answerId
  /\ QuizManager.isCurrentQuestionAnswered s' = true
  /\ QuizManager.getCurrentQuestion s' = QuizManager.getCurrentQuestion s
  /\ currentQuestionIndex s' = currentQuestionIndex s
  /\ (forall q, QuizManager.getCurrentQuestion s = Some q ->
        forall other, other ≠ Question.id q ->
          userAnswers s' !! other = userAnswers s !! other)
  /\ (forall newer, exists s'',
        QuizManager.answerQuestion newer s' = Returned s''
        /\ QuizManager.getCurrentQuestionAnswer s'' = Some newer).
Proof.
  unfold QuizManager.answerQuestion.
  destruct (currentQuiz s) as [quiz|] eqn:Hquiz; [|done].
  destruct (isCompleted s) eqn:Hdone; [done|].
  destruct (QuizManager.getCurrentQuestion s) as [q|] eqn:Hq; [|done].
  intros [= <-].
  assert (forall recorded done,
            QuizManager.getCurrentQuestion
              (mkQuizState (Some quiz) (currentQuestionIndex s) recorded
                 (startTime s) done) = Some q) as Hq'.
  { intros recorded done. unfold QuizManager.getCurrentQuestion in *.
    simpl. by rewrite Hquiz in Hq. }
  split.
  { unfold QuizManager.getCurrentQuestionAnswer. rewrite Hq'. simpl.
    apply lookup_insert_eq. }
  split.
  { unfold QuizManager.isCurrentQuestionAnswered. rewrite Hq'. simpl.
    apply bool_decide_eq_true. rewrite lookup_insert_eq. by eexists. }
  split; [by rewrite Hq'|]. split; [done|]. split.
  { intros q0 [= <-] other Hother. simpl. by apply lookup_insert_ne. }
  intros newer. simpl. rewrite Hq'. eexists.
  split; [reflexivity|].
  unfold QuizManager.getCurrentQuestionAnswer. rewrite Hq'. simpl.
  apply lookup_insert_eq.
Qed.

Lemma X24_answer_round_trip_witness :
  QuizManager.getCurrentQuestionAnswer
    (mkQuizState (Some twoQuestions) 1
       (<["q2" := "a2"]> (<["q1" := "a1"]> ∅)) (Some 0) false)
  = Some "a2".
Proof.
  apply (X24_answer_round_trip "a2" halfAnswered). reflexivity.
Defined.

(** X25: completeQuiz throws on a manager whose quiz was never started.
    When it returns, the quiz is marked completed with its answers and
    index unchanged; answerQuestion then throws 'No active quiz', the
    navigation methods still return, and a second completeQuiz returns the
    same score, percentage, verdict and graded answers. *)
Theorem X25_completion_locks_answers (clk clk' : Clock)
    (roundPercent : Z -> Z -> option Z) (s s' : QuizState)
    (result : QuizResult.QuizResult) :
  QuizManager.completeQuiz clk roundPercent QuizManager.initialState
  = Thrown "No active quiz"
  /\ (QuizManager.completeQuiz clk roundPercent s = Returned (s', result) ->
      isCompleted s' = true
      /\ userAnswers s' = userAnswers s
      /\ currentQuestionIndex s' = currentQuestionIndex s
      /\ currentQuiz s' = currentQuiz s
      /\ (forall answerId,
            QuizManager.answerQuestion answerId s' = Thrown "No active quiz")
      /\ (exists s1 moved, QuizManager.nextQuestion s' = Returned (s1, moved))
      /\ (exists s1 moved,
            QuizManager.previousQuestion s' = Returned (s1, moved))
      /\ exists result',
           QuizManager.completeQuiz clk' roundPercent s'
           = Returned (s', result')
           /\ QuizResult.score result' = QuizResult.score result
           /\ QuizResult.percentage result' = QuizResult.percentage result
           /\ QuizResult.passed result' = QuizResult.passed result
           /\ QuizResult.answers result' = QuizResult.answers result).
Proof.
  split; [done|].
  unfold QuizManager.completeQuiz.
  destruct (currentQuiz s) as [quiz|] eqn:Hquiz; [|done].
  destruct (startTime s) as [t|] eqn:Htime; [|done].
  destruct (foldl _ _ _) as [correctCount answers] eqn:Hloop.
  intros [= <- <-]. simpl.
  split; [done|]. split; [done|]. split; [done|]. split; [done|].
  split; [done|].
  split.
  { unfold QuizManager.nextQuestion. simpl.
    destruct (_ <? _); by eexists _, _. }
  split.
  { unfold QuizManager.previousQuestion. simpl.
    destruct (_ <? _); by eexists _, _. }
  rewrite Hloop. by eexists.
Qed.

Lemma X25_completion_locks_answers_witness :
  QuizManager.answerQuestion "a2" halfCompleted = Thrown "No active quiz".
Proof.
  apply (proj2 (X25_completion_locks_answers tenDaysClock tenDaysClock
                  (λ n d, Some (n * 100 / d)) halfAnswered halfCompleted
                  halfResult)).
  vm_compute. reflexivity.
Defined.

(** X26: the score that completeQuiz returns is the number of questions
    whose recorded answer is their correctAnswerId, a question without a
    recorded answer counting as answered with the empty string; it lies
    between 0 and totalQuestions, the number of questions; the graded
    answers list the questions in order; and the verdict is passed only
    when the percentage is a number that reaches the passing score. *)
Theorem X26_score_counts_correct_answers (clk : Clock)
    (roundPercent : Z -> Z -> option Z) (s s' : QuizState)
    (quiz : Quiz.Quiz) (result : QuizResult.QuizResult) :
  currentQuiz s = Some quiz ->
  QuizManager.completeQuiz clk roundPercent s = Returned (s', result) ->
  QuizResult.score result
  = Z.of_nat
      (length (filter
                 (λ q, default "" (userAnswers s !! Question.id q)
                       = Question.correctAnswerId q) (Quiz.questions quiz)))
  /\ QuizResult.totalQuestions result
     = Z.of_nat (length (Quiz.questions quiz))
  /\ 0 <= QuizResult.score result <= QuizResult.totalQuestions result
  /\ UserAnswer.question <$> QuizResult.answers result = Quiz.questions quiz
  /\ Forall (λ a,
        UserAnswer.selectedAnswerId a
        = default "" (userAnswers s !! Question.id (UserAnswer.question a))
        /\ UserAnswer.questionId a = Question.id (UserAnswer.question a)
        /\ (UserAnswer.isCorrect a = true
            <-> UserAnswer.selectedAnswerId a
                = Question.correctAnswerId (UserAnswer.question a)))
       (QuizResult.answers result)
  /\ QuizResult.percentage result
     = roundPercent (QuizResult.score result)
         (QuizResult.totalQuestions result)
  /\ (QuizResult.passed result = true <->
      exists p, QuizResult.percentage result = Some p
                /\ Quiz.passingScore quiz <= p).
Proof.
  intros Hquiz. unfold QuizManager.completeQuiz. rewrite Hquiz.
  destruct (startTime s) as [t|]; [|done].
  rewrite gradeLoop_spec. simpl. intros [= <- <-]. simpl.
  split; [lia|]. split; [done|].
  split.
  { split; [lia|]. rewrite Z.add_0_l.
    apply inj_le, length_filter. }
  split.
  { rewrite <- list_fmap_compose.
    rewrite <- (list_fmap_id (Quiz.questions quiz)) at 2.
    by apply list_fmap_ext. }
  split.
  { rewrite Forall_fmap. apply Forall_forall. intros q _. simpl.
    split; [done|]. split; [done|]. apply String.eqb_eq. }
  split; [done|].
  destruct (roundPercent _ _) as [p|]; simpl.
  - rewrite Z.leb_le. split; [by exists p|]. by intros (p' & [= <-] & ?).
  - split; [done|]. by intros (p' & [=] & _).
Qed.

Lemma X26_score_counts_correct_answers_witness :
  QuizResult.score halfResult
  = Z.of_nat
      (length (filter
                 (λ q, default "" (userAnswers halfAnswered !! Question.id q)
                       = Question.correctAnswerId q)
                 (Quiz.questions twoQuestions))).
Proof.
  apply (X26_score_counts_correct_answers tenDaysClock
           (λ n d, Some (n * 100 / d)) halfAnswered halfCompleted
           twoQuestions halfResult);
    [reflexivity | vm_compute; reflexivity].
Defined.


